(** * SLMGen training-progress tracker: a shallow embedding

    Sources embedded here:
    - [libslmgen/core/training_tracker.py]: [TrainingStatus], [TrainingEvent],
      [TrainingSession], [TrainingTracker];
    - [libslmgen/app/routers/training.py]: the endpoints and the SSE
      generator [event_generator] of [stream_training_events];
    - [libslmgen/app/models.py]: the request and response models of
      those endpoints.

    Conventions of the embedding.
    - A [datetime] is an integer number of microseconds since the epoch
      (UTC); a [timedelta] is an integer number of microseconds, as in
      CPython.  [isoformat()] is an injective rendering of a datetime and
      is represented by the datetime itself.
    - Python [int] is [Z].  A Python [float] that is only carried around
      is represented by the exact rational ([Q]) it stands for: the
      binary rounding of float arithmetic, infinities and NaN are outside
      the model.  The exceptions of float arithmetic are modelled: an
      integer too large for a float, in [x / n], [n * x] and [a / b],
      raises [OverflowError].  Where the code turns a float back into an
      integer with [int(...)] the binary64 rounding of the float decides
      the integer and is modelled ([binary64]).
    - [timedelta(seconds=...)] raises [OverflowError] outside the range
      of [timedelta] (at most 999999999 days in magnitude).
      [timedelta(hours=...)] is only ever called with the default of two
      hours; its range limit, and the range of [datetime] itself, are
      not modelled.
    - [datetime.now(timezone.utc)] is an effect: every call consumes one
      reading of the wall clock, which is part of the world state.
    - Python exceptions are explicit: a computation returns [Return a] or
      [Raise e], and a raising computation keeps the mutations done so far.
    - Every tracker method runs under [self._session_lock]; a method call is
      therefore one atomic step on the world.  Log output is not modelled. *)

From Stdlib Require Import ZArith QArith Qminmax Qround List String Bool Lia.
From Stdlib Require Import DecimalString Sorted Qabs.
Import ListNotations.
Local Open Scope Z_scope.

Set Implicit Arguments.

(** ** Exceptions and outcomes *)

Inductive exn : Type :=
| KeyError (key : string)
| ZeroDivisionError
| OverflowError
| UnboundLocalError (name : string)
| HTTPException (status_code : Z) (detail : string).

Inductive Outcome (A : Type) : Type :=
| Return (a : A)
| Raise (e : exn).
Arguments Return {A} a.
Arguments Raise {A} e.

Definition obind {A B} (m : Outcome A) (k : A -> Outcome B) : Outcome B :=
  match m with
  | Return a => k a
  | Raise e => Raise e
  end.

(** ** Time *)

Definition datetime := Z.
Definition timedelta := Z.

Definition usec_per_sec : Z := 1000000.

(** [timedelta(hours=h)] *)
Definition timedelta_hours (h : Z) : timedelta := h * 3600 * usec_per_sec.

(** Rounding to the nearest integer, ties to even: the rule of
    [timedelta(seconds=<float>)] and of [round(x, ndigits)]. *)
Definition round_half_even (q : Q) : Z :=
  let f := Qfloor q in
  match Qcompare (q - inject_Z f)%Q (1 # 2) with
  | Lt => f
  | Gt => f + 1
  | Eq => if Z.even f then f else f + 1
  end.

(** The least and the greatest [timedelta]: [timedelta.min] is
    -999999999 days, [timedelta.max] is 999999999 days, 23:59:59.999999. *)
Definition timedelta_min : timedelta := - 999999999 * 86400 * usec_per_sec.
Definition timedelta_max : timedelta :=
  (999999999 + 1) * 86400 * usec_per_sec - 1.

(** [timedelta(seconds=x)] for a float [x]: the microseconds are rounded
    half to even; a result whose days exceed 999999999 in magnitude is an
    [OverflowError]. *)
Definition timedelta_seconds (x : Q) : Outcome timedelta :=
  let us := round_half_even (x * inject_Z usec_per_sec)%Q in
  if (timedelta_min <=? us) && (us <=? timedelta_max) then Return us
  else Raise OverflowError.

(** [td.total_seconds()] *)
Definition total_seconds (td : timedelta) : Q := td # 1000000.

(** [2 ** z] as a rational. *)
Definition pow2 (z : Z) : Q :=
  match z with
  | Z0 => 1%Q
  | Zpos p => inject_Z (2 ^ Zpos p)
  | Zneg p => (1 # (2 ^ p)%positive)%Q
  end.

(** The exponent of the binade of a positive rational [a]: the [e] with
    [2 ** e <= a < 2 ** (e + 1)]. *)
Definition binade (a : Q) : Z :=
  let e := Z.log2 (Qnum a) - Z.log2 (Zpos (Qden a)) in
  if Qle_bool (pow2 e) a then e else e - 1.

(** The binary64 float nearest to [q], ties to even (53 significant
    bits; the exponent range is not modelled: the values rounded here
    are durations in seconds, far inside it).  [a / b] on two integers
    is the binary64 nearest to the exact quotient. *)
Definition binary64 (q : Q) : Q :=
  match Qnum q with
  | Z0 => 0%Q
  | _ =>
      let ulp := pow2 (binade (Qabs q) - 52) in
      (inject_Z (round_half_even (q / ulp)) * ulp)%Q
  end.

(** [int(x)] for a float [x]: truncation towards zero. *)
Definition int_of_float (x : Q) : Z :=
  if Qle_bool 0 x then Qfloor x else Qceiling x.

(** [round(x, 2)] *)
Definition round2 (x : Q) : Q := Qmake (round_half_even (x * 100)%Q) 100.

(** [a / b] on two floats. *)
Definition truediv (a b : Q) : Outcome Q :=
  if Qeq_bool b 0 then Raise ZeroDivisionError else Return (a / b)%Q.

(** The largest float is [2 ** 1024 - 2 ** 971]; rounding to nearest,
    ties to even, every number of magnitude [2 ** 1024 - 2 ** 970] or
    more would round to [2 ** 1024], which no float holds. *)
Definition float_limit : Z := 2 ^ 1024 - 2 ^ 970.

(** [float(n)] for an integer [n], as [x / n] and [n * x] do it for a
    float [x]: "int too large to convert to float". *)
Definition float_of_int (n : Z) : Outcome Q :=
  if Z.abs n <? float_limit then Return (inject_Z n)
  else Raise OverflowError.

(** [a / b] on two integers: "integer division result too large for a
    float". *)
Definition int_truediv (a b : Z) : Outcome Q :=
  if b =? 0 then Raise ZeroDivisionError
  else if Qle_bool (inject_Z float_limit) (Qabs (inject_Z a / inject_Z b))
       then Raise OverflowError
       else Return (inject_Z a / inject_Z b)%Q.

(** ** Lists as Python uses them

    An index into a list ([l[-1]], [l[0]]) is written as a match on the
    shape of the list, following the test the source makes first
    ([if not self.events], [len(recent_events) < 2], [if new_events]): the
    empty and one-element cases are the source's early returns, and in
    the remaining case [last r e] is the last item of [e :: r]. *)

(** [l[-k:]] for [k >= 1]: the last [k] items, the whole list when it has
    fewer.  ([l[-0:]] would be the whole list; the source only slices with
    [k = min(20, len) >= 2].) *)
Definition slice_last {A} (k : nat) (l : list A) : list A :=
  skipn (List.length l - k)%nat l.

(** ** TrainingStatus, TrainingEvent *)

Inductive TrainingStatus : Type := PENDING | RUNNING | COMPLETED | FAILED.

Definition status_eqb (a b : TrainingStatus) : bool :=
  match a, b with
  | PENDING, PENDING | RUNNING, RUNNING
  | COMPLETED, COMPLETED | FAILED, FAILED => true
  | _, _ => false
  end.

(** [TrainingStatus.value] *)
Definition status_value (st : TrainingStatus) : string :=
  match st with
  | PENDING => "pending"
  | RUNNING => "running"
  | COMPLETED => "completed"
  | FAILED => "failed"
  end.

Record TrainingEvent : Type := mkEvent {
  step : Z;
  loss : Q;
  epoch : Z;
  learning_rate : Q;
  timestamp : datetime;
  grad_norm : option Q;
  tokens_per_second : option Q;
  gpu_memory_used : option Q
}.

(** The dictionary built by [TrainingEvent.to_dict]. *)
Module EventDict.
Record t : Type := mk {
  step : Z;
  loss : Q;
  epoch : Z;
  learning_rate : Q;
  timestamp : datetime;
  grad_norm : option Q;
  tokens_per_second : option Q;
  gpu_memory_used : option Q
}.
End EventDict.

Definition event_to_dict (e : TrainingEvent) : EventDict.t :=
  {| EventDict.step := step e;
     EventDict.loss := loss e;
     EventDict.epoch := epoch e;
     EventDict.learning_rate := learning_rate e;
     EventDict.timestamp := timestamp e;
     EventDict.grad_norm := grad_norm e;
     EventDict.tokens_per_second := tokens_per_second e;
     EventDict.gpu_memory_used := gpu_memory_used e |}.

(** ** TrainingSession *)

Record TrainingSession : Type := mkSession {
  session_id : string;
  job_id : string;
  model_id : string;
  total_steps : Z;
  total_epochs : Z;
  created_at : datetime;
  started_at : option datetime;
  completed_at : option datetime;
  status : TrainingStatus;
  events : list TrainingEvent;
  error_message : option string;
  _last_activity : datetime
}.

(** Field updates ([self.f = v]). *)
Definition set_events (s : TrainingSession) (v : list TrainingEvent) :=
  mkSession (session_id s) (job_id s) (model_id s) (total_steps s)
    (total_epochs s) (created_at s) (started_at s) (completed_at s)
    (status s) v (error_message s) (_last_activity s).
Definition set_last_activity (s : TrainingSession) (v : datetime) :=
  mkSession (session_id s) (job_id s) (model_id s) (total_steps s)
    (total_epochs s) (created_at s) (started_at s) (completed_at s)
    (status s) (events s) (error_message s) v.
Definition set_status (s : TrainingSession) (v : TrainingStatus) :=
  mkSession (session_id s) (job_id s) (model_id s) (total_steps s)
    (total_epochs s) (created_at s) (started_at s) (completed_at s)
    v (events s) (error_message s) (_last_activity s).
Definition set_started_at (s : TrainingSession) (v : option datetime) :=
  mkSession (session_id s) (job_id s) (model_id s) (total_steps s)
    (total_epochs s) (created_at s) v (completed_at s)
    (status s) (events s) (error_message s) (_last_activity s).
Definition set_completed_at (s : TrainingSession) (v : option datetime) :=
  mkSession (session_id s) (job_id s) (model_id s) (total_steps s)
    (total_epochs s) (created_at s) (started_at s) v
    (status s) (events s) (error_message s) (_last_activity s).
Definition set_error_message (s : TrainingSession) (v : option string) :=
  mkSession (session_id s) (job_id s) (model_id s) (total_steps s)
    (total_epochs s) (created_at s) (started_at s) (completed_at s)
    (status s) (events s) v (_last_activity s).

(** ** The wall clock and the monad of effects *)

(** [ticks k] is what the [k]-th call of [datetime.now(timezone.utc)]
    returns; [reads] counts the calls made so far. *)
Record Clock : Type := mkClock {
  ticks : nat -> datetime;
  reads : nat
}.

(** State and exceptions: the state survives a raise. *)
Definition ST (S A : Type) : Type := S -> Outcome A * S.

Definition ret {S A} (a : A) : ST S A := fun s => (Return a, s).

Definition raise {S A} (e : exn) : ST S A := fun s => (Raise e, s).

Definition bind {S A B} (m : ST S A) (k : A -> ST S B) : ST S B :=
  fun s =>
    match m s with
    | (Return a, s') => k a s'
    | (Raise e, s') => (Raise e, s')
    end.

Definition lift {S A} (o : Outcome A) : ST S A := fun s => (o, s).

Declare Scope st_scope.
Delimit Scope st_scope with st.
Notation "x <- m ;; k" := (bind m (fun x => k))
  (at level 61, m at next level, right associativity) : st_scope.
Notation "m ;;; k" := (bind m (fun _ => k))
  (at level 61, right associativity) : st_scope.
Local Open Scope st_scope.

(** [datetime.now(timezone.utc)] *)
Definition utcnow : ST Clock datetime :=
  fun c => (Return (ticks c (reads c)), mkClock (ticks c) (S (reads c))).

(** ** Methods of TrainingSession *)

(** [TrainingEvent(step=..., ...)]: [timestamp] comes from its default
    factory. *)
Definition new_event (step : Z) (loss : Q) (epoch : Z) (learning_rate : Q)
    (grad_norm tokens_per_second gpu_memory_used : option Q)
  : ST Clock TrainingEvent :=
  ts <- utcnow ;;
  ret (mkEvent step loss epoch learning_rate ts
         grad_norm tokens_per_second gpu_memory_used).

(** [TrainingSession(session_id=..., ...)]: [created_at] and
    [_last_activity] come from their default factories, in field order. *)
Definition new_session (session_id job_id model_id : string)
    (total_steps total_epochs : Z) : ST Clock TrainingSession :=
  created <- utcnow ;;
  activity <- utcnow ;;
  ret (mkSession session_id job_id model_id total_steps total_epochs
         created None None PENDING [] None activity).

Definition session_add_event (self : TrainingSession) (event : TrainingEvent)
  : ST Clock TrainingSession :=
  let self := set_events self (events self ++ [event]) in
  now <- utcnow ;;
  let self := set_last_activity self now in
  if status_eqb (status self) PENDING then
    let self := set_status self RUNNING in
    ret (set_started_at self (Some (timestamp event)))
  else ret self.

Definition session_complete (self : TrainingSession)
  : ST Clock TrainingSession :=
  let self := set_status self COMPLETED in
  now <- utcnow ;;
  let self := set_completed_at self (Some now) in
  ret (set_last_activity self now).

Definition session_fail (self : TrainingSession) (error : string)
  : ST Clock TrainingSession :=
  let self := set_status self FAILED in
  let self := set_error_message self (Some error) in
  now <- utcnow ;;
  let self := set_completed_at self (Some now) in
  ret (set_last_activity self now).

Definition default_ttl_hours : Z := 2.

Definition is_expired (self : TrainingSession) (ttl_hours : Z)
  : ST Clock bool :=
  now <- utcnow ;;
  ret (_last_activity self + timedelta_hours ttl_hours <? now).

Definition current_step (self : TrainingSession) : Z :=
  match events self with
  | [] => 0
  | e :: r => step (last r e)
  end.

Definition current_epoch (self : TrainingSession) : Z :=
  match events self with
  | [] => 0
  | e :: r => epoch (last r e)
  end.

Definition latest_loss (self : TrainingSession) : option Q :=
  match events self with
  | [] => None
  | e :: r => Some (loss (last r e))
  end.

Definition progress_percent (self : TrainingSession) : Outcome Q :=
  if total_steps self =? 0 then Return 0%Q
  else
    obind (int_truediv (current_step self) (total_steps self))
          (fun ratio => Return (Qmin 100 (ratio * 100))).

Definition estimate_eta (self : TrainingSession) : Outcome (option timedelta) :=
  if (List.length (events self) <? 2)%nat then Return None
  else
    let recent_events :=
      slice_last (Nat.min 20 (List.length (events self))) (events self) in
    match recent_events with
    | [] | [_] => Return None
    | e0 :: r =>
        let e1 := last r e0 in
        let time_diff := total_seconds (timestamp e1 - timestamp e0) in
        let steps_diff := step e1 - step e0 in
        if steps_diff <=? 0 then Return None
        else
          obind (float_of_int steps_diff) (fun steps_diff =>
          obind (truediv time_diff steps_diff) (fun seconds_per_step =>
          let remaining_steps := total_steps self - current_step self in
          obind (float_of_int remaining_steps) (fun remaining_steps =>
          obind (timedelta_seconds (remaining_steps * seconds_per_step))
                (fun eta => Return (Some eta)))))
    end.

Definition get_loss_history (self : TrainingSession) : list (Z * Q) :=
  map (fun e => (step e, loss e)) (events self).

(** [f"{n}"] for an integer. *)
Definition str_int (n : Z) : string := NilZero.string_of_int (Z.to_int n).

(** [eta.total_seconds()] is the float [microseconds / 10**6]; [int]
    truncates that float. *)
Definition _format_eta (eta : timedelta) : string :=
  let total_seconds := int_of_float (binary64 (total_seconds eta)) in
  if total_seconds <? 60 then str_int total_seconds ++ "s"
  else if total_seconds <? 3600 then
    let minutes := total_seconds / 60 in
    let seconds := total_seconds mod 60 in
    str_int minutes ++ "m " ++ str_int seconds ++ "s"
  else
    let hours := total_seconds / 3600 in
    let minutes := (total_seconds mod 3600) / 60 in
    str_int hours ++ "h " ++ str_int minutes ++ "m".

(** The dictionary built by [TrainingSession.to_dict]: the status
    snapshot. *)
Module StatusDict.
Record t : Type := mk {
  session_id : string;
  job_id : string;
  model_id : string;
  status : string;
  total_steps : Z;
  total_epochs : Z;
  current_step : Z;
  current_epoch : Z;
  progress_percent : Q;
  latest_loss : option Q;
  eta_seconds : option Q;
  eta_formatted : option string;
  created_at : datetime;
  started_at : option datetime;
  completed_at : option datetime;
  error_message : option string;
  event_count : nat
}.
End StatusDict.

(** Truth value of an [Optional[timedelta]]: [None] and [timedelta(0)] are
    false. *)
Definition eta_truth (eta : option timedelta) : option timedelta :=
  match eta with
  | Some td => if td =? 0 then None else Some td
  | None => None
  end.

Definition to_dict (self : TrainingSession) : Outcome StatusDict.t :=
  obind (estimate_eta self) (fun eta =>
  obind (progress_percent self) (fun progress =>
  Return
    {| StatusDict.session_id := session_id self;
       StatusDict.job_id := job_id self;
       StatusDict.model_id := model_id self;
       StatusDict.status := status_value (status self);
       StatusDict.total_steps := total_steps self;
       StatusDict.total_epochs := total_epochs self;
       StatusDict.current_step := current_step self;
       StatusDict.current_epoch := current_epoch self;
       StatusDict.progress_percent := round2 progress;
       StatusDict.latest_loss := latest_loss self;
       StatusDict.eta_seconds := option_map total_seconds (eta_truth eta);
       StatusDict.eta_formatted := option_map _format_eta (eta_truth eta);
       StatusDict.created_at := created_at self;
       StatusDict.started_at := started_at self;
       StatusDict.completed_at := completed_at self;
       StatusDict.error_message := error_message self;
       StatusDict.event_count := List.length (events self) |})).

(** ** The session dictionary

    [self._sessions] is a Python [dict]: keys are unique and iteration
    follows insertion order.  It is an association list whose keys are
    kept distinct ([dict_wf]). *)

Definition dict (V : Type) : Type := list (string * V).

(** [d.get(k)] *)
Fixpoint dict_get {V} (k : string) (d : dict V) : option V :=
  match d with
  | [] => None
  | (k', v) :: r => if String.eqb k k' then Some v else dict_get k r
  end.

(** [d[k] = v]: an existing key keeps its place, a new key goes last. *)
Fixpoint dict_set {V} (k : string) (v : V) (d : dict V) : dict V :=
  match d with
  | [] => [(k, v)]
  | (k', v') :: r =>
      if String.eqb k k' then (k, v) :: r else (k', v') :: dict_set k v r
  end.

(** [del d[k]]: [KeyError] when the key is missing. *)
Fixpoint dict_del {V} (k : string) (d : dict V) : Outcome (dict V) :=
  match d with
  | [] => Raise (KeyError k)
  | (k', v') :: r =>
      if String.eqb k k' then Return r
      else obind (dict_del k r) (fun r' => Return ((k', v') :: r'))
  end.

Definition dict_keys {V} (d : dict V) : list string := map fst d.
Definition dict_values {V} (d : dict V) : list V := map snd d.

Definition dict_wf {V} (d : dict V) : Prop := NoDup (dict_keys d).

(** ** TrainingTracker *)

(** The singleton's state, with the wall clock the process reads. *)
Record World : Type := mkWorld {
  _sessions : dict TrainingSession;
  clock : Clock
}.

(** [TrainingTracker()] on first use: [_sessions = {}]. *)
Definition TrainingTracker_new (c : Clock) : World := mkWorld [] c.

Definition M (A : Type) : Type := ST World A.

Definition with_clock {A} (m : ST Clock A) : M A :=
  fun w => let (o, c) := m (clock w) in (o, mkWorld (_sessions w) c).

Definition read_sessions : M (dict TrainingSession) :=
  fun w => (Return (_sessions w), w).

Definition write_sessions (d : dict TrainingSession) : M unit :=
  fun w => (Return tt, mkWorld d (clock w)).

(** The list comprehension of [_cleanup_expired]: one [is_expired()] call,
    hence one clock reading, per session, in iteration order. *)
Fixpoint expired_ids (items : list (string * TrainingSession))
  : ST Clock (list string) :=
  match items with
  | [] => ret []
  | (sid, session) :: rest =>
      b <- is_expired session default_ttl_hours ;;
      ids <- expired_ids rest ;;
      ret (if b then sid :: ids else ids)
  end.

(** The [for sid in expired_ids: del self._sessions[sid]] loop. *)
Fixpoint delete_sessions (ids : list string) : M unit :=
  match ids with
  | [] => ret tt
  | sid :: rest =>
      d <- read_sessions ;;
      d' <- lift (dict_del sid d) ;;
      write_sessions d' ;;;
      delete_sessions rest
  end.

Definition _cleanup_expired : M nat :=
  d <- read_sessions ;;
  ids <- with_clock (expired_ids d) ;;
  delete_sessions ids ;;;
  ret (List.length ids).

Definition start_session (session_id job_id model_id : string)
    (total_steps total_epochs : Z) : M TrainingSession :=
  _cleanup_expired ;;;
  session <- with_clock
               (new_session session_id job_id model_id
                  total_steps total_epochs) ;;
  d <- read_sessions ;;
  write_sessions (dict_set session_id session d) ;;;
  ret session.

Definition get_session (session_id : string) : M (option TrainingSession) :=
  d <- read_sessions ;;
  ret (dict_get session_id d).

Definition add_event (session_id : string) (step : Z) (loss : Q) (epoch : Z)
    (learning_rate : Q)
    (grad_norm tokens_per_second gpu_memory_used : option Q) : M bool :=
  d <- read_sessions ;;
  match dict_get session_id d with
  | None => ret false
  | Some session =>
      event <- with_clock
                 (new_event step loss epoch learning_rate
                    grad_norm tokens_per_second gpu_memory_used) ;;
      session' <- with_clock (session_add_event session event) ;;
      write_sessions (dict_set session_id session' d) ;;;
      ret true
  end.

Definition complete_session (session_id : string) : M bool :=
  d <- read_sessions ;;
  match dict_get session_id d with
  | None => ret false
  | Some session =>
      session' <- with_clock (session_complete session) ;;
      write_sessions (dict_set session_id session' d) ;;;
      ret true
  end.

Definition fail_session (session_id : string) (error : string) : M bool :=
  d <- read_sessions ;;
  match dict_get session_id d with
  | None => ret false
  | Some session =>
      session' <- with_clock (session_fail session error) ;;
      write_sessions (dict_set session_id session' d) ;;;
      ret true
  end.

Definition get_events (session_id : string) (since_step : option Z)
  : M (list EventDict.t) :=
  d <- read_sessions ;;
  match dict_get session_id d with
  | None => ret []
  | Some session =>
      let events :=
        match since_step with
        | Some k => filter (fun e => k <? step e) (events session)
        | None => events session
        end in
      ret (map event_to_dict events)
  end.

Definition get_latest (session_id : string) : M (option EventDict.t) :=
  d <- read_sessions ;;
  match dict_get session_id d with
  | None => ret None
  | Some session =>
      match events session with
      | [] => ret None
      | e :: r => ret (Some (event_to_dict (last r e)))
      end
  end.

Definition get_status (session_id : string) : M (option StatusDict.t) :=
  d <- read_sessions ;;
  match dict_get session_id d with
  | None => ret None
  | Some session =>
      snap <- lift (to_dict session) ;;
      ret (Some snap)
  end.

Fixpoint to_dict_all (l : list TrainingSession) : Outcome (list StatusDict.t) :=
  match l with
  | [] => Return []
  | s :: r =>
      obind (to_dict s) (fun x =>
      obind (to_dict_all r) (fun xs => Return (x :: xs)))
  end.

Definition list_sessions : M (list StatusDict.t) :=
  _cleanup_expired ;;;
  d <- read_sessions ;;
  lift (to_dict_all (dict_values d)).

Definition active_count : M nat :=
  _cleanup_expired ;;;
  d <- read_sessions ;;
  ret (List.length d).

(** ** The progress feed: [event_generator] of [stream_training_events]

    The generator's frame holds two locals: [last_step], and [json], which
    the [import json] statement inside the [if new_events:] block binds.
    An [import] in a function body makes the name local to that function,
    so reading [json] before that statement has run raises
    [UnboundLocalError].  What the generator has yielded so far is kept in
    [yielded], oldest first. *)

Inductive Notification : Type :=
| SessionExpired                         (* event: error / data: Session expired *)
| StatusUpdate (status : StatusDict.t)   (* data: json.dumps(status) *)
| TrainingComplete (status : StatusDict.t). (* event: complete / data: json.dumps(status) *)

Record Frame : Type := mkFrame {
  last_step : Z;
  json : bool;
  yielded : list Notification
}.

Definition G (A : Type) : Type := ST (Frame * World) A.

(** A call into the tracker from the generator. *)
Definition tracker {A} (m : M A) : G A :=
  fun fw => let (o, w) := m (snd fw) in (o, (fst fw, w)).

Definition yield (n : Notification) : G unit :=
  fun fw =>
    let f := fst fw in
    (Return tt, (mkFrame (last_step f) (json f) (yielded f ++ [n]), snd fw)).

Definition load_last_step : G Z :=
  fun fw => (Return (last_step (fst fw)), fw).

Definition store_last_step (v : Z) : G unit :=
  fun fw =>
    let f := fst fw in
    (Return tt, (mkFrame v (json f) (yielded f), snd fw)).

(** [import json] *)
Definition import_json : G unit :=
  fun fw =>
    let f := fst fw in
    (Return tt, (mkFrame (last_step f) true (yielded f), snd fw)).

(** A read of the local [json]. *)
Definition load_json : G unit :=
  fun fw =>
    if json (fst fw) then (Return tt, fw)
    else (Raise (UnboundLocalError "json"), fw).

(** [status["status"] in ("completed", "failed")] *)
Definition status_in_completed_failed (status : StatusDict.t) : bool :=
  String.eqb (StatusDict.status status) "completed"
  || String.eqb (StatusDict.status status) "failed".

(** How one pass through the body of [while True] ends. *)
Inductive LoopExit : Type :=
| Break    (* the generator returns: the stream ends *)
| Sleep.   (* [await asyncio.sleep(interval)], then the next pass *)

Definition event_generator_body (session_id : string) : G LoopExit :=
  status <- tracker (get_status session_id) ;;
  match status with
  | None =>
      yield SessionExpired ;;;
      ret Break
  | Some status =>
      since <- load_last_step ;;
      new_events <- tracker (get_events session_id (Some since)) ;;
      match new_events with
      | [] => ret tt
      | e :: r =>
          store_last_step (EventDict.step (last r e)) ;;;
          import_json ;;;
          load_json ;;;
          yield (StatusUpdate status)
      end ;;;
      if status_in_completed_failed status then
        load_json ;;;
        yield (TrainingComplete status) ;;;
        ret Break
      else ret Sleep
  end.

(** ** Registry operations as data

    What callers of the tracker (webhook handlers, dashboards, other
    subscriptions) may do, for statements over sequences of calls. *)

Inductive Op : Type :=
| StartSession (session_id job_id model_id : string)
    (total_steps total_epochs : Z)
| AddEvent (session_id : string) (step : Z) (loss : Q) (epoch : Z)
    (learning_rate : Q)
    (grad_norm tokens_per_second gpu_memory_used : option Q)
| CompleteSession (session_id : string)
| FailSession (session_id : string) (error : string)
| GetStatus (session_id : string)
| GetEvents (session_id : string) (since_step : option Z)
| GetLatest (session_id : string)
| ListSessions.

Definition run_op (o : Op) : M unit :=
  match o with
  | StartSession sid jid mid ts te => start_session sid jid mid ts te ;;; ret tt
  | AddEvent sid st lo ep lr gn tps mem =>
      add_event sid st lo ep lr gn tps mem ;;; ret tt
  | CompleteSession sid => complete_session sid ;;; ret tt
  | FailSession sid err => fail_session sid err ;;; ret tt
  | GetStatus sid => get_status sid ;;; ret tt
  | GetEvents sid k => get_events sid k ;;; ret tt
  | GetLatest sid => get_latest sid ;;; ret tt
  | ListSessions => list_sessions ;;; ret tt
  end.

(** The world after a call (whether it returned or raised). *)
Definition after (o : Op) (w : World) : World := snd (run_op o w).

Definition after_all (ops : list Op) (w : World) : World :=
  fold_left (fun w o => after o w) ops w.

(** How a run of the generator stands after the scheduled passes. *)
Inductive StreamState : Type :=
| Ended        (* the generator returned *)
| Sleeping.    (* suspended in [asyncio.sleep], the stream is open *)

(** The [while True] loop.  [during] lists, for each suspension of the
    generator, the tracker calls other tasks make before it resumes (a
    pass itself runs without suspension between its two tracker
    calls; what happens while a notification is being delivered is
    merged with the following sleep, since the pass reads nothing
    afterwards).  The run stops when the generator returns, raises, or
    has no further scheduled resumption. *)
Fixpoint event_generator (session_id : string) (during : list (list Op))
  : G StreamState :=
  exit <- event_generator_body session_id ;;
  match exit with
  | Break => ret Ended
  | Sleep =>
      match during with
      | [] => ret Sleeping
      | ops :: rest =>
          tracker (fun w => (Return tt, after_all ops w)) ;;;
          event_generator session_id rest
      end
  end.

(** [stream_training_events]: 404 when the session is unknown, otherwise
    a fresh generator frame ([last_step = 0], [json] unbound). *)
Definition stream_training_events (session_id : string) : M Frame :=
  session <- get_session session_id ;;
  match session with
  | None => raise (HTTPException 404 "Training session not found")
  | Some _ => ret (mkFrame 0 false [])
  end.

(** ** Descriptions of results, used in the statements below *)

(** The expiry test against a given clock reading. *)
Definition expired_at (now : datetime) (s : TrainingSession) : bool :=
  _last_activity s + timedelta_hours default_ttl_hours <? now.

(** What a sweep leaves of [d] when the session at position [i] is tested
    against the reading [t (n + i)]. *)
Fixpoint swept (t : nat -> datetime) (n : nat) (d : dict TrainingSession)
  : dict TrainingSession :=
  match d with
  | [] => []
  | (sid, s) :: r =>
      if expired_at (t n) s then swept t (S n) r
      else (sid, s) :: swept t (S n) r
  end.

(** The ids such a sweep removes. *)
Fixpoint swept_ids (t : nat -> datetime) (n : nat) (d : dict TrainingSession)
  : list string :=
  match d with
  | [] => []
  | (sid, s) :: r =>
      if expired_at (t n) s then sid :: swept_ids t (S n) r
      else swept_ids t (S n) r
  end.

(** The clock after [k] further readings. *)
Definition advance (k : nat) (c : Clock) : Clock :=
  mkClock (ticks c) (reads c + k).

(** The session after [add_event(event)] when the clock reads [now]. *)
Definition appended (s : TrainingSession) (event : TrainingEvent)
    (now : datetime) : TrainingSession :=
  mkSession (session_id s) (job_id s) (model_id s) (total_steps s)
    (total_epochs s) (created_at s)
    (if status_eqb (status s) PENDING then Some (timestamp event)
     else started_at s)
    (completed_at s)
    (if status_eqb (status s) PENDING then RUNNING else status s)
    (events s ++ [event]) (error_message s) now.

(** The session after [complete()] when the clock reads [now]. *)
Definition completed (s : TrainingSession) (now : datetime)
  : TrainingSession :=
  mkSession (session_id s) (job_id s) (model_id s) (total_steps s)
    (total_epochs s) (created_at s) (started_at s) (Some now)
    COMPLETED (events s) (error_message s) now.

(** The session after [fail(error)] when the clock reads [now]. *)
Definition failed (s : TrainingSession) (error : string) (now : datetime)
  : TrainingSession :=
  mkSession (session_id s) (job_id s) (model_id s) (total_steps s)
    (total_epochs s) (created_at s) (started_at s) (Some now)
    FAILED (events s) (Some error) now.

(** The session [start_session] creates when the clock reads [t n] and
    then [t (S n)]. *)
Definition fresh (t : nat -> datetime) (n : nat)
    (sid jid mid : string) (ts te : Z) : TrainingSession :=
  mkSession sid jid mid ts te (t n) None None PENDING [] None (t (S n)).

Definition terminal (st : TrainingStatus) : Prop :=
  st = COMPLETED \/ st = FAILED.

(** The calls that update a session: addEvent, complete, fail. *)
Definition is_update (o : Op) : bool :=
  match o with
  | AddEvent _ _ _ _ _ _ _ _ | CompleteSession _ | FailSession _ _ => true
  | _ => false
  end.

(** The calls that only query: getStatus, getEvents, getLatest. *)
Definition is_query (o : Op) : bool :=
  match o with
  | GetStatus _ | GetEvents _ _ | GetLatest _ => true
  | _ => false
  end.

(** The session an updating call leaves when it finds [s] under its id
    and the clock stands at [c]; and the number of clock readings it
    takes. *)
Definition updated (o : Op) (c : Clock) (s : TrainingSession)
  : TrainingSession :=
  let t := ticks c in
  let n := reads c in
  match o with
  | AddEvent _ st lo ep lr gn tps mem =>
      appended s (mkEvent st lo ep lr (t n) gn tps mem) (t (S n))
  | CompleteSession _ => completed s (t n)
  | FailSession _ err => failed s err (t n)
  | _ => s
  end.

Definition readings (o : Op) : nat :=
  match o with
  | AddEvent _ _ _ _ _ _ _ _ => 2
  | CompleteSession _ | FailSession _ _ => 1
  | _ => 0
  end.

(** The session id a call names. *)
Definition target (o : Op) : option string :=
  match o with
  | StartSession sid _ _ _ _ | AddEvent sid _ _ _ _ _ _ _
  | CompleteSession sid | FailSession sid _
  | GetStatus sid | GetEvents sid _ | GetLatest sid => Some sid
  | ListSessions => None
  end.

(** The status a call leaves to the session [sid], from the status it
    finds. *)
Definition status_after (sid : string) (st : TrainingStatus) (o : Op)
  : TrainingStatus :=
  match o with
  | AddEvent k _ _ _ _ _ _ _ =>
      if String.eqb k sid then
        match st with PENDING => RUNNING | _ => st end
      else st
  | CompleteSession k => if String.eqb k sid then COMPLETED else st
  | FailSession k _ => if String.eqb k sid then FAILED else st
  | _ => st
  end.

Definition targets (o : Op) (sid : string) : bool :=
  match target o with
  | Some k => String.eqb k sid
  | None => false
  end.

(** The status of the session bound to [sid], if any. *)
Definition status_of (sid : string) (w : World) : option TrainingStatus :=
  option_map status (dict_get sid (_sessions w)).

(** ** Concrete worlds for the examples *)

(** A clock that advances by one second at every reading. *)
Definition clock_1s : Clock :=
  mkClock (fun k => Z.of_nat k * usec_per_sec) 0.

(** [start("s1", ...)] then [fail("s1", "CUDA out of memory")]: no event
    was ever reported. *)
Definition world_failed_early : World :=
  after_all
    [StartSession "s1" "j1" "m1" 100 1;
     FailSession "s1" "CUDA out of memory"]
    (TrainingTracker_new clock_1s).

(** [start("s1", ...)] alone. *)
Definition world_started : World :=
  after (StartSession "s1" "j1" "m1" 100 1) (TrainingTracker_new clock_1s).

(** The percentage [progress_percent] computes from [total_steps] and
    [current_step]. *)
Definition percent (total current : Z) : Q :=
  if total =? 0 then 0%Q
  else Qmin 100 (inject_Z current / inject_Z total * 100).

(** The sampling window of [estimate_eta]. *)
Definition window (s : TrainingSession) : list TrainingEvent :=
  slice_last (Nat.min 20 (List.length (events s))) (events s).

(** [adds_to sid o]: [o] is an [add_event] call for session [sid]. *)
Definition adds_to (sid : string) (o : Op) : bool :=
  match o with
  | AddEvent k _ _ _ _ _ _ _ => String.eqb k sid
  | _ => false
  end.

(** The step an [add_event] call reports. *)
Definition call_step (o : Op) : Z :=
  match o with
  | AddEvent _ st _ _ _ _ _ _ => st
  | _ => 0
  end.

(** The events a run of [add_event] calls on one existing session stores,
    when the clock has been read [n] times before: each call reads the
    clock twice, first for the event's timestamp. *)
Fixpoint arrivals (t : nat -> datetime) (n : nat) (ops : list Op)
  : list TrainingEvent :=
  match ops with
  | [] => []
  | AddEvent _ st lo ep lr gn tps mem :: r =>
      mkEvent st lo ep lr (t n) gn tps mem :: arrivals t (S (S n)) r
  | _ :: r => arrivals t n r
  end.

(** The session [world_started] holds. *)
Definition session_started : TrainingSession :=
  fresh (ticks clock_1s) 0 "s1" "j1" "m1" 100 1.

(** Reports arriving out of step order, one step twice. *)
Definition calls_out_of_order : list Op :=
  [AddEvent "s1" 30 (9 # 10) 0 (1 # 5000) None None None;
   AddEvent "s1" 10 (8 # 10) 0 (1 # 5000) None None None;
   AddEvent "s1" 30 (7 # 10) 0 (1 # 5000) None None None;
   AddEvent "s1" 20 (6 # 10) 0 (1 # 5000) None None None].


(** [world_started] three hours later: the clock now reads 03:00:00 after
    the epoch at every call, while the session's last activity was at
    00:00:01. *)
Definition world_stale : World :=
  mkWorld (_sessions world_started)
          (mkClock (fun _ => 3 * 3600 * usec_per_sec) 0).

(** A clock that advances by one hour at every reading. *)
Definition clock_1h : Clock :=
  mkClock (fun k => Z.of_nat k * 3600 * usec_per_sec) 0.

(** Two sessions: "s1" last active at 01:00, "s2" last active at 04:00;
    the next two clock readings are 05:00 and 06:00. *)
Definition world_two : World :=
  after_all
    [StartSession "s1" "j1" "m1" 100 1;
     StartSession "s2" "j2" "m2" 200 2]
    (TrainingTracker_new clock_1h).

Definition session_one : TrainingSession :=
  mkSession "s1" "j1" "m1" 100 1 0 None None PENDING [] None
    (1 * 3600 * usec_per_sec).


(** A session with [total_steps = 10] that has reported step 10 and then
    step 20: the run has gone past its announced total. *)
Definition world_overshoot : World :=
  after_all
    [StartSession "s1" "j1" "m1" 10 1;
     AddEvent "s1" 10 (1 # 2) 0 (1 # 5000) None None None;
     AddEvent "s1" 20 (2 # 5) 0 (1 # 5000) None None None]
    (TrainingTracker_new clock_1s).

Definition session_overshoot : TrainingSession :=
  mkSession "s1" "j1" "m1" 10 1 0 (Some (2 * usec_per_sec)) None RUNNING
    [mkEvent 10 (1 # 2) 0 (1 # 5000) (2 * usec_per_sec) None None None;
     mkEvent 20 (2 # 5) 0 (1 # 5000) (4 * usec_per_sec) None None None]
    None (5 * usec_per_sec).

(** The same reports against [total_steps = 20]: the run is exactly at
    its total. *)
Definition world_at_total : World :=
  after_all
    [StartSession "s1" "j1" "m1" 20 1;
     AddEvent "s1" 10 (1 # 2) 0 (1 # 5000) None None None;
     AddEvent "s1" 20 (2 # 5) 0 (1 # 5000) None None None]
    (TrainingTracker_new clock_1s).

(** A session created with [total_steps = 0]. *)
Definition session_zero_total : TrainingSession :=
  fresh (ticks clock_1s) 0 "s0" "j0" "m0" 0 1.



(** ** The endpoints of [app/routers/training.py]

    The request bodies are the pydantic models of [app/models.py]; a
    handler receives one already parsed (defaults filled in).  A JSON
    reply built as a Python [dict] is a record with the same keys.
    [raise HTTPException(...)] is [raise (HTTPException ...)].  A handler
    runs without suspension, so its tracker calls follow each other on
    the same world. *)

Module TrainingStartRequest.
Record t : Type := mk {
  session_id : string;
  job_id : string;
  model_id : string;
  total_steps : Z;
  total_epochs : Z
}.
End TrainingStartRequest.

Module TrainingEventRequest.
Record t : Type := mk {
  session_id : string;
  step : Z;
  loss : Q;
  epoch : Z;
  learning_rate : Q;
  grad_norm : option Q;
  tokens_per_second : option Q;
  gpu_memory_used : option Q
}.
End TrainingEventRequest.

Module TrainingCompleteRequest.
Record t : Type := mk {
  session_id : string;
  error : option string
}.
End TrainingCompleteRequest.

Module StartReply.
Record t : Type := mk {
  message : string;
  session_id : string;
  status : string
}.
End StartReply.

Module WebhookReply.
Record t : Type := mk {
  message : string;
  received : bool
}.
End WebhookReply.

Module CompleteReply.
Record t : Type := mk {
  message : string;
  session_id : string
}.
End CompleteReply.

(** [TrainingStatusResponse]: the keys of the status snapshot.  [status]
    is a [str] enum, held by its value. *)
Module TrainingStatusResponse.
Record t : Type := mk {
  session_id : string;
  job_id : string;
  model_id : string;
  status : string;
  total_steps : Z;
  total_epochs : Z;
  current_step : Z;
  current_epoch : Z;
  progress_percent : Q;
  latest_loss : option Q;
  eta_seconds : option Q;
  eta_formatted : option string;
  created_at : datetime;
  started_at : option datetime;
  completed_at : option datetime;
  error_message : option string;
  event_count : nat
}.
End TrainingStatusResponse.

(** The [TrainingStatusResponse] built from the keys of [status]. *)
Definition TrainingStatusResponse_of (d : StatusDict.t)
  : TrainingStatusResponse.t :=
  {| TrainingStatusResponse.session_id := StatusDict.session_id d;
     TrainingStatusResponse.job_id := StatusDict.job_id d;
     TrainingStatusResponse.model_id := StatusDict.model_id d;
     TrainingStatusResponse.status := StatusDict.status d;
     TrainingStatusResponse.total_steps := StatusDict.total_steps d;
     TrainingStatusResponse.total_epochs := StatusDict.total_epochs d;
     TrainingStatusResponse.current_step := StatusDict.current_step d;
     TrainingStatusResponse.current_epoch := StatusDict.current_epoch d;
     TrainingStatusResponse.progress_percent := StatusDict.progress_percent d;
     TrainingStatusResponse.latest_loss := StatusDict.latest_loss d;
     TrainingStatusResponse.eta_seconds := StatusDict.eta_seconds d;
     TrainingStatusResponse.eta_formatted := StatusDict.eta_formatted d;
     TrainingStatusResponse.created_at := StatusDict.created_at d;
     TrainingStatusResponse.started_at := StatusDict.started_at d;
     TrainingStatusResponse.completed_at := StatusDict.completed_at d;
     TrainingStatusResponse.error_message := StatusDict.error_message d;
     TrainingStatusResponse.event_count := StatusDict.event_count d |}.

Definition not_found : exn :=
  HTTPException 404 "Training session not found".

Definition start_training_session (request : TrainingStartRequest.t)
  : M StartReply.t :=
  session <- start_session
               (TrainingStartRequest.session_id request)
               (TrainingStartRequest.job_id request)
               (TrainingStartRequest.model_id request)
               (TrainingStartRequest.total_steps request)
               (TrainingStartRequest.total_epochs request) ;;
  ret {| StartReply.message := "Training session started";
         StartReply.session_id := session_id session;
         StartReply.status := status_value (status session) |}.


(** [if request.error:] holds for a string that is present and not
    empty. *)
Definition complete_training (request : TrainingCompleteRequest.t)
  : M CompleteReply.t :=
  let sid := TrainingCompleteRequest.session_id request in
  outcome <-
    match TrainingCompleteRequest.error request with
    | Some err =>
        if negb (String.eqb err "") then
          success <- fail_session sid err ;;
          ret (success, "failed"%string)
        else
          success <- complete_session sid ;;
          ret (success, "completed"%string)
    | None =>
        success <- complete_session sid ;;
        ret (success, "completed"%string)
    end ;;
  if negb (fst outcome) then raise not_found
  else
    ret {| CompleteReply.message :=
             ("Training marked as " ++ snd outcome)%string;
           CompleteReply.session_id := sid |}.

Definition get_training_status (session_id : string)
  : M TrainingStatusResponse.t :=
  status <- get_status session_id ;;
  match status with
  | None => raise not_found
  | Some status => ret (TrainingStatusResponse_of status)
  end.

(** [TrainingEventResponse] declares exactly the keys of the event
    dictionary; building one from [e] copies them. *)
Definition get_training_events (session_id : string) (since_step : option Z)
  : M (list EventDict.t) :=
  events <- get_events session_id since_step ;;
  missing <-
    match events with
    | [] =>
        session <- get_session session_id ;;
        ret (match session with None => true | Some _ => false end)
    | _ :: _ => ret false
    end ;;
  if missing : bool then raise not_found else ret events.

Definition get_latest_event (session_id : string) : M EventDict.t :=
  event <- get_latest session_id ;;
  match event with
  | None => raise (HTTPException 404 "No events found for session")
  | Some event => ret event
  end.

Definition list_training_sessions : M (list StatusDict.t) := list_sessions.

(** The snapshot [to_dict] builds once [estimate_eta] has answered
    [eta]. *)
Definition snapshot (s : TrainingSession) (eta : option timedelta)
  : StatusDict.t :=
  {| StatusDict.session_id := session_id s;
     StatusDict.job_id := job_id s;
     StatusDict.model_id := model_id s;
     StatusDict.status := status_value (status s);
     StatusDict.total_steps := total_steps s;
     StatusDict.total_epochs := total_epochs s;
     StatusDict.current_step := current_step s;
     StatusDict.current_epoch := current_epoch s;
     StatusDict.progress_percent :=
       round2 (percent (total_steps s) (current_step s));
     StatusDict.latest_loss := latest_loss s;
     StatusDict.eta_seconds := option_map total_seconds (eta_truth eta);
     StatusDict.eta_formatted := option_map _format_eta (eta_truth eta);
     StatusDict.created_at := created_at s;
     StatusDict.started_at := started_at s;
     StatusDict.completed_at := completed_at s;
     StatusDict.error_message := error_message s;
     StatusDict.event_count := List.length (events s) |}.

(** Every key of the dictionary is the [session_id] of the session bound
    to it. *)
Definition ids_match (d : dict TrainingSession) : Prop :=
  Forall (fun p => session_id (snd p) = fst p) d.

(** Twenty reports, steps 1 to 20, one second apart from 00:01:40. *)
Definition last_twenty : list TrainingEvent :=
  map (fun i => mkEvent (Z.of_nat i) (1 # 2) 0 (1 # 5000)
                  ((100 + Z.of_nat i) * usec_per_sec) None None None)
      (seq 1 20).

(** Two sessions that differ only in what came before those twenty
    reports. *)
Definition session_long_history : TrainingSession :=
  mkSession "s1" "j1" "m1" 100 1 0 (Some 0) None RUNNING
    ([mkEvent 500 (9 # 10) 0 (1 # 5000) 0 None None None;
      mkEvent 1 (9 # 10) 0 (1 # 5000) (50 * usec_per_sec) None None None]
     ++ last_twenty)
    None (120 * usec_per_sec).

Definition session_short_history : TrainingSession :=
  mkSession "s1" "j1" "m1" 100 1 0 (Some 0) None RUNNING
    last_twenty None (120 * usec_per_sec).





(** The entries [get_events] returns for the events a run of [add_event]
    calls stores: one entry per call, in call order, holding the values
    the call reported and the clock reading taken on receipt. *)
Fixpoint arrival_dicts (t : nat -> datetime) (n : nat) (ops : list Op)
  : list EventDict.t :=
  match ops with
  | [] => []
  | AddEvent _ st lo ep lr gn tps mem :: r =>
      EventDict.mk st lo ep lr (t n) gn tps mem :: arrival_dicts t (S (S n)) r
  | _ :: r => arrival_dicts t n r
  end.




(** A session announced with [total_steps = 10 ** 15] that has reported
    step 10 at 00:00:02 and step 20 at 00:00:04. *)
Definition world_huge_total : World :=
  after_all
    [StartSession "s1" "j1" "m1" (10 ^ 15) 1;
     AddEvent "s1" 10 (1 # 2) 0 (1 # 5000) None None None;
     AddEvent "s1" 20 (2 # 5) 0 (1 # 5000) None None None]
    (TrainingTracker_new clock_1s).

Unset Implicit Arguments.

(** * Properties *)

(** ** The dictionary *)

Section DictFacts.
Context {V : Type}.
Implicit Types (d : dict V) (k : string) (v : V).

Lemma dict_get_in_keys k d v :
  dict_get k d = Some v -> In k (dict_keys d).
Proof.
  induction d as [|[k' v'] r IH]; simpl; [discriminate|].
  destruct (String.eqb_spec k k') as [->|Hne]; auto.
Qed.

Lemma dict_get_not_in_keys k d :
  ~ In k (dict_keys d) -> dict_get k d = None.
Proof.
  induction d as [|[k' v'] r IH]; simpl; [reflexivity|].
  intros Hn. destruct (String.eqb_spec k k') as [->|Hne].
  - exfalso. apply Hn. now left.
  - apply IH. intros Hin. apply Hn. now right.
Qed.

Lemma dict_get_set_same k v d : dict_get k (dict_set k v d) = Some v.
Proof.
  induction d as [|[k' v'] r IH]; simpl.
  - now rewrite String.eqb_refl.
  - destruct (String.eqb_spec k k') as [->|Hne]; simpl.
    + now rewrite String.eqb_refl.
    + destruct (String.eqb_spec k k'); [contradiction|exact IH].
Qed.

Lemma dict_get_set_other k k' v d :
  k' <> k -> dict_get k' (dict_set k v d) = dict_get k' d.
Proof.
  intros Hne. induction d as [|[k0 v0] r IH]; simpl.
  - destruct (String.eqb_spec k' k); [contradiction|reflexivity].
  - destruct (String.eqb_spec k k0) as [->|Hk]; simpl.
    + destruct (String.eqb_spec k' k0); [contradiction|reflexivity].
    + now rewrite IH.
Qed.

Lemma dict_keys_set_present k v v0 d :
  dict_get k d = Some v0 -> dict_keys (dict_set k v d) = dict_keys d.
Proof.
  induction d as [|[k' v'] r IH]; simpl; [discriminate|].
  destruct (String.eqb_spec k k') as [->|Hne]; simpl; [reflexivity|].
  intros H. now rewrite IH.
Qed.

Lemma dict_keys_set_absent k v d :
  dict_get k d = None -> dict_keys (dict_set k v d) = dict_keys d ++ [k].
Proof.
  induction d as [|[k' v'] r IH]; simpl; [reflexivity|].
  destruct (String.eqb_spec k k') as [->|Hne]; simpl; [discriminate|].
  intros H. now rewrite IH.
Qed.

Lemma dict_get_none_not_in k d :
  dict_get k d = None -> ~ In k (dict_keys d).
Proof.
  induction d as [|[k' v'] r IH]; simpl; [tauto|].
  destruct (String.eqb_spec k k') as [->|Hne]; [discriminate|].
  intros Hg [Heq|Hin]; [congruence|now apply IH].
Qed.

Lemma dict_set_wf k v d : dict_wf d -> dict_wf (dict_set k v d).
Proof.
  unfold dict_wf. intros Hwf.
  destruct (dict_get k d) as [v0|] eqn:Hg.
  - erewrite dict_keys_set_present by eassumption. exact Hwf.
  - rewrite dict_keys_set_absent by assumption.
    apply NoDup_app; [exact Hwf | repeat constructor; simpl; tauto |].
    intros x Hx [<-|[]].
    now apply (dict_get_none_not_in _ _ Hg).
Qed.

(** Deleting a key that sits after a prefix not holding it. *)
Lemma dict_del_app k v pre r :
  ~ In k (dict_keys pre) ->
  dict_del k (pre ++ (k, v) :: r) = Return (pre ++ r).
Proof.
  induction pre as [|[k' v'] p IH]; simpl; intros Hn.
  - now rewrite String.eqb_refl.
  - destruct (String.eqb_spec k k') as [->|Hne]; [tauto|].
    rewrite IH; [reflexivity|tauto].
Qed.

End DictFacts.

(** ** The expiry sweep *)

Lemma expired_ids_run d c :
  expired_ids d c
  = (Return (swept_ids (ticks c) (reads c) d), advance (List.length d) c).
Proof.
  revert c. induction d as [|[sid s] r IH]; intros [t n]; simpl.
  - unfold ret, advance. simpl. now rewrite Nat.add_0_r.
  - unfold bind, is_expired, utcnow, ret. simpl.
    rewrite IH. unfold advance, expired_at. simpl.
    rewrite Nat.add_succ_r. now destruct (_ <? _).
Qed.

Lemma swept_keys_incl t n d k :
  In k (dict_keys (swept t n d)) -> In k (dict_keys d).
Proof.
  revert n. induction d as [|[sid s] r IH]; intros n; simpl; [tauto|].
  destruct (expired_at (t n) s); simpl; intros H.
  - right. eapply IH; eauto.
  - destruct H as [H|H]; [now left|right; eapply IH; eauto].
Qed.

Lemma swept_wf t n d : dict_wf d -> dict_wf (swept t n d).
Proof.
  unfold dict_wf. revert n.
  induction d as [|[sid s] r IH]; intros n; simpl; [auto|].
  intros Hnd. inversion Hnd as [|? ? Hnotin Hr]; subst.
  destruct (expired_at (t n) s); simpl; [now apply IH|].
  constructor; [|now apply IH].
  intros Hin. apply Hnotin. eapply swept_keys_incl; eauto.
Qed.

Lemma delete_sessions_run t n d pre c :
  dict_wf (pre ++ d) ->
  delete_sessions (swept_ids t n d) (mkWorld (pre ++ d) c)
  = (Return tt, mkWorld (pre ++ swept t n d) c).
Proof.
  unfold dict_wf, dict_keys.
  revert n pre. induction d as [|[sid s] r IH]; intros n pre Hnd; simpl.
  - reflexivity.
  - destruct (expired_at (t n) s); simpl.
    + unfold bind, read_sessions, lift, write_sessions. simpl.
      rewrite dict_del_app.
      * apply IH. rewrite map_app in *. simpl in Hnd.
        now apply NoDup_remove_1 in Hnd.
      * rewrite map_app in Hnd. simpl in Hnd.
        apply NoDup_remove_2 in Hnd. intros Hin. apply Hnd.
        apply in_or_app. now left.
    + specialize (IH (S n) (pre ++ [(sid, s)])).
      rewrite <- !app_assoc in IH. simpl in IH. now apply IH.
Qed.

Lemma _cleanup_expired_run w :
  dict_wf (_sessions w) ->
  _cleanup_expired w
  = (Return (List.length
               (swept_ids (ticks (clock w)) (reads (clock w)) (_sessions w))),
     mkWorld (swept (ticks (clock w)) (reads (clock w)) (_sessions w))
             (advance (List.length (_sessions w)) (clock w))).
Proof.
  intros Hwf. destruct w as [d c]. simpl in *.
  unfold _cleanup_expired, bind, read_sessions, with_clock. simpl.
  rewrite expired_ids_run.
  pose proof (@delete_sessions_run (ticks c) (reads c) d []
                (advance (List.length d) c) Hwf) as H.
  simpl in H. rewrite H. reflexivity.
Qed.

(** Where a session at position [i] stands after the sweep. *)
Lemma swept_get t n d i sid s :
  dict_wf d ->
  nth_error d i = Some (sid, s) ->
  dict_get sid (swept t n d)
  = if expired_at (t (n + i)%nat) s then None else Some s.
Proof.
  unfold dict_wf. revert n i.
  induction d as [|[k0 s0] r IH]; intros n i Hnd Hi.
  - destruct i; discriminate.
  - inversion Hnd as [|? ? Hnotin Hr]; subst. destruct i as [|i]; simpl in Hi.
    + injection Hi as -> ->. rewrite Nat.add_0_r. simpl.
      destruct (expired_at (t n) s); simpl.
      * apply dict_get_not_in_keys. intros Hin. apply Hnotin.
        eapply swept_keys_incl; eauto.
      * now rewrite String.eqb_refl.
    + assert (Hne : sid <> k0).
      { intros ->. apply Hnotin. apply nth_error_In in Hi.
        change k0 with (fst (k0, s)). now apply in_map. }
      rewrite Nat.add_succ_r. simpl.
      destruct (expired_at (t n) s0); simpl.
      * now apply (IH (S n) i).
      * destruct (String.eqb_spec sid k0); [contradiction|].
        now apply (IH (S n) i).
Qed.


Lemma dict_get_nth {V} sid (d : dict V) v :
  dict_get sid d = Some v -> exists i, nth_error d i = Some (sid, v).
Proof.
  induction d as [|[k0 v0] r IH]; simpl; [discriminate|].
  destruct (String.eqb_spec sid k0) as [->|Hne].
  - intros [= ->]. now exists 0%nat.
  - intros H. destruct (IH H) as [i Hi]. now exists (S i).
Qed.

(** ** Session methods against the clock *)

Lemma session_add_event_run s e c :
  session_add_event s e c
  = (Return (appended s e (ticks c (reads c))), advance 1 c).
Proof.
  destruct s as [? ? ? ? ? ? ? ? st ? ? ?].
  unfold session_add_event, bind, utcnow, ret, appended, advance. simpl.
  rewrite Nat.add_1_r. now destruct st.
Qed.

Lemma session_complete_run s c :
  session_complete s c
  = (Return (completed s (ticks c (reads c))), advance 1 c).
Proof.
  unfold session_complete, bind, utcnow, ret, advance. simpl.
  now rewrite Nat.add_1_r.
Qed.

Lemma session_fail_run s err c :
  session_fail s err c
  = (Return (failed s err (ticks c (reads c))), advance 1 c).
Proof.
  unfold session_fail, bind, utcnow, ret, advance. simpl.
  now rewrite Nat.add_1_r.
Qed.

Lemma new_session_run sid jid mid ts te c :
  new_session sid jid mid ts te c
  = (Return (fresh (ticks c) (reads c) sid jid mid ts te), advance 2 c).
Proof.
  unfold new_session, bind, utcnow, ret, advance, fresh. simpl.
  now rewrite Nat.add_succ_r, Nat.add_1_r.
Qed.

Lemma advance_advance a b c : advance a (advance b c) = advance (b + a) c.
Proof. unfold advance. simpl. now rewrite Nat.add_assoc. Qed.

Lemma advance_0 c : advance 0 c = c.
Proof. destruct c. unfold advance. simpl. now rewrite Nat.add_0_r. Qed.

(** ** Tracker calls, one at a time *)

(** An updating call whose session exists rebinds the id to the updated
    session. *)
Lemma after_update_found o sid s w :
  is_update o = true ->
  target o = Some sid ->
  dict_get sid (_sessions w) = Some s ->
  run_op o w
  = (Return tt,
     mkWorld (dict_set sid (updated o (clock w) s) (_sessions w))
             (advance (readings o) (clock w))).
Proof.
  destruct w as [d c].
  destruct o; simpl; try discriminate; intros _ [= ->] Hg.
  - unfold bind, add_event, bind, read_sessions. simpl. rewrite Hg.
    unfold bind, with_clock, new_event, bind, utcnow, ret. simpl.
    rewrite session_add_event_run. unfold write_sessions, advance. simpl.
    repeat f_equal. lia.
  - unfold bind, complete_session, bind, read_sessions. simpl. rewrite Hg.
    unfold ret, completed, advance. simpl. now rewrite Nat.add_1_r.
  - unfold bind, fail_session, bind, read_sessions. simpl. rewrite Hg.
    unfold ret, failed, advance. simpl. now rewrite Nat.add_1_r.
Qed.

(** An updating call whose session is missing changes nothing. *)
Lemma after_update_missing o sid w :
  is_update o = true ->
  target o = Some sid ->
  dict_get sid (_sessions w) = None ->
  run_op o w = (Return tt, w).
Proof.
  destruct w as [d c].
  destruct o; simpl; try discriminate; intros _ [= ->] Hg.
  - unfold bind, add_event, bind, read_sessions. simpl. now rewrite Hg.
  - unfold bind, complete_session, bind, read_sessions. simpl. now rewrite Hg.
  - unfold bind, fail_session, bind, read_sessions. simpl. now rewrite Hg.
Qed.

Lemma update_has_target o : is_update o = true -> exists sid, target o = Some sid.
Proof. destruct o; simpl; try discriminate; eauto. Qed.

Lemma after_update_lookup o sid w :
  is_update o = true ->
  dict_get sid (_sessions (after o w))
  = option_map
      (fun s => if targets o sid then updated o (clock w) s else s)
      (dict_get sid (_sessions w)).
Proof.
  intros Hu. destruct (update_has_target o Hu) as [k Hk].
  unfold after, targets. rewrite Hk.
  destruct (dict_get k (_sessions w)) as [sk|] eqn:Hgk.
  - rewrite (after_update_found o k sk w Hu Hk Hgk). simpl.
    destruct (String.eqb_spec k sid) as [->|Hne].
    + now rewrite dict_get_set_same, Hgk.
    + rewrite dict_get_set_other by congruence.
      now destruct (dict_get sid (_sessions w)).
  - rewrite (after_update_missing o k w Hu Hk Hgk). simpl.
    destruct (String.eqb_spec k sid) as [->|Hne].
    + now rewrite Hgk.
    + now destruct (dict_get sid (_sessions w)).
Qed.

Lemma status_updated o sid c s :
  is_update o = true ->
  status (if targets o sid then updated o c s else s)
  = status_after sid (status s) o.
Proof.
  destruct o; simpl; try discriminate; intros _; unfold targets; simpl;
    destruct (String.eqb _ sid); try reflexivity.
  unfold appended. cbn. now destruct (status s).
Qed.

Lemma status_after_terminal sid st o :
  terminal st -> terminal (status_after sid st o).
Proof.
  unfold terminal. destruct o; simpl; auto;
    destruct (String.eqb _ sid); auto.
  intros [->| ->]; auto.
Qed.

Lemma status_after_not_pending sid st o :
  st <> PENDING -> status_after sid st o <> PENDING.
Proof.
  destruct o; simpl; auto; destruct (String.eqb _ sid); auto;
    try discriminate.
  destruct st; auto; discriminate.
Qed.

(** ** C1: status transitions *)

(** C1, as stated, fails: [complete] on a Failed session makes it
    Completed ([fail] on a Completed one makes it Failed), and [complete]
    takes a Pending session to Completed without passing through
    Running. *)
Lemma C1_terminal_status_is_overwritten :
  status_of "s1" world_failed_early = Some FAILED
  /\ status_of "s1" (after (CompleteSession "s1") world_failed_early)
     = Some COMPLETED
  /\ status_of "s1" world_started = Some PENDING
  /\ status_of "s1" (after (CompleteSession "s1") world_started)
     = Some COMPLETED.
Proof. vm_compute. repeat split. Qed.

(** C1 (amended): under any sequence of addEvent / complete / fail calls
    (on any session ids) a session stays registered and its status is the
    one obtained by folding [status_after] over the calls: addEvent turns
    Pending into Running and changes no other status, complete sets
    Completed and fail sets Failed whatever the status was.  Hence a
    status that has left Pending never returns to it, and a terminal
    status (Completed or Failed) stays terminal: it is never turned back
    into Pending or Running, though complete and fail may still replace
    one terminal status by the other. *)
Theorem C1_status_transitions (w : World) (sid : string)
    (s : TrainingSession) (ops : list Op) :
  dict_get sid (_sessions w) = Some s ->
  forallb is_update ops = true ->
  exists s',
    dict_get sid (_sessions (after_all ops w)) = Some s'
    /\ status s' = fold_left (status_after sid) ops (status s)
    /\ (status s <> PENDING -> status s' <> PENDING)
    /\ (terminal (status s) -> terminal (status s')).
Proof.
  revert w s. induction ops as [|o ops IH]; intros w s Hg Hall; simpl.
  - exists s. auto.
  - simpl in Hall. apply andb_prop in Hall as [Ho Hops].
    pose proof (after_update_lookup o sid w Ho) as Hl.
    rewrite Hg in Hl. simpl in Hl.
    destruct (IH _ _ Hl Hops) as (s' & Hg' & Hst & Hnp & Hterm).
    rewrite status_updated in Hst, Hnp, Hterm by assumption.
    exists s'. repeat split; auto.
    + intros H. apply Hnp. now apply status_after_not_pending.
    + intros H. apply Hterm. now apply status_after_terminal.
Qed.

Lemma C1_status_transitions_witness :
  exists s',
    dict_get "s1"
      (_sessions
         (after_all
            [AddEvent "s1" 5 (1 # 2) 0 (1 # 5000) None None None;
             FailSession "s1" "late"]
            world_failed_early)) = Some s'
    /\ terminal (status s').
Proof.
  destruct (dict_get "s1" (_sessions world_failed_early)) as [s|] eqn:Hg;
    [|vm_compute in Hg; discriminate].
  destruct (@C1_status_transitions world_failed_early "s1" s
              [AddEvent "s1" 5 (1 # 2) 0 (1 # 5000) None None None;
               FailSession "s1" "late"] Hg eq_refl)
    as (s' & Hg' & _ & _ & Hterm).
  exists s'. split; [exact Hg'|].
  apply Hterm. vm_compute in Hg. injection Hg as <-. now right.
Defined.

(** ** Derived metrics *)

Lemma truediv_nonzero (a : Q) (z : Z) :
  z <> 0 -> truediv a (inject_Z z) = Return (a / inject_Z z)%Q.
Proof.
  intros Hz. unfold truediv, Qeq_bool. simpl. rewrite Z.mul_1_r.
  destruct (Z.eqb_spec z 0); [contradiction|reflexivity].
Qed.

Lemma float_limit_pos : 0 < float_limit.
Proof. reflexivity. Qed.

Lemma float_of_int_outcome n :
  float_of_int n = Return (inject_Z n)
  \/ float_of_int n = Raise OverflowError.
Proof. unfold float_of_int. destruct (_ <? _); auto. Qed.

Lemma float_of_int_run n :
  Z.abs n < float_limit -> float_of_int n = Return (inject_Z n).
Proof.
  intros H. unfold float_of_int.
  now destruct (Z.ltb_spec (Z.abs n) float_limit); [|lia].
Qed.

Lemma int_truediv_outcome a b :
  b <> 0 ->
  int_truediv a b = Return (inject_Z a / inject_Z b)%Q
  \/ int_truediv a b = Raise OverflowError.
Proof.
  intros Hb. unfold int_truediv.
  destruct (Z.eqb_spec b 0); [contradiction|].
  destruct (Qle_bool _ _); auto.
Qed.

(** A quotient of integers is no larger than its numerator. *)
Lemma int_truediv_run a b :
  b <> 0 -> Z.abs a < float_limit ->
  int_truediv a b = Return (inject_Z a / inject_Z b)%Q.
Proof.
  intros Hb Ha. unfold int_truediv.
  destruct (Z.eqb_spec b 0); [contradiction|].
  generalize float_limit, Ha. clear Ha. intros L Ha.
  destruct (Qle_bool _ _) eqn:Hle; [|reflexivity].
  exfalso. apply Qle_bool_iff in Hle.
  destruct b as [|p|p]; [contradiction| |];
    unfold Qle, Qabs, Qdiv, Qmult, Qinv, inject_Z in Hle;
    cbn [Qnum Qden] in Hle; nia.
Qed.

Lemma progress_percent_outcome s :
  progress_percent s = Return (percent (total_steps s) (current_step s))
  \/ progress_percent s = Raise OverflowError.
Proof.
  unfold progress_percent, percent.
  destruct (Z.eqb_spec (total_steps s) 0) as [|Hne]; [now left|].
  destruct (int_truediv_outcome (current_step s) (total_steps s) Hne)
    as [-> | ->]; [now left|now right].
Qed.

Lemma progress_percent_run s :
  Z.abs (current_step s) < float_limit ->
  progress_percent s = Return (percent (total_steps s) (current_step s)).
Proof.
  intros Hc. unfold progress_percent, percent.
  destruct (Z.eqb_spec (total_steps s) 0) as [|Hne]; [reflexivity|].
  now rewrite int_truediv_run.
Qed.

Lemma percent_le_100 total current : (percent total current <= 100)%Q.
Proof.
  unfold percent. destruct (total =? 0); [discriminate|apply Q.le_min_l].
Qed.

Lemma ratio_mono total c1 c2 :
  0 < total -> c1 <= c2 ->
  (inject_Z c1 / inject_Z total * 100 <= inject_Z c2 / inject_Z total * 100)%Q.
Proof.
  intros Ht Hc.
  apply Qmult_le_compat_r; [|discriminate].
  unfold Qdiv. apply Qmult_le_compat_r.
  - now rewrite <- Zle_Qle.
  - apply Qinv_le_0_compat. change 0%Q with (inject_Z 0).
    rewrite <- Zle_Qle. lia.
Qed.

Lemma percent_mono total c1 c2 :
  0 <= total -> c1 <= c2 -> (percent total c1 <= percent total c2)%Q.
Proof.
  intros Ht Hc. unfold percent.
  destruct (Z.eqb_spec total 0) as [|Hne]; [apply Qle_refl|].
  apply Q.min_le_compat_l. apply ratio_mono; lia.
Qed.


(** The only exception of the derived metrics is [OverflowError]: of
    [timedelta(seconds=...)], and of an integer too large for a float. *)
Lemma timedelta_seconds_outcome x :
  (exists td, timedelta_seconds x = Return td)
  \/ timedelta_seconds x = Raise OverflowError.
Proof.
  unfold timedelta_seconds. destruct (_ && _); [left; eauto|now right].
Qed.

Lemma estimate_eta_outcome s :
  (exists r, estimate_eta s = Return r)
  \/ estimate_eta s = Raise OverflowError.
Proof.
  unfold estimate_eta.
  destruct (_ <? 2)%nat; [left; eauto|].
  destruct (slice_last _ _) as [|e0 [|e1 r]]; [left; eauto|left; eauto|].
  destruct (Z.leb_spec (step (last (e1 :: r) e0) - step e0) 0);
    [left; eauto|].
  destruct (float_of_int_outcome (step (last (e1 :: r) e0) - step e0))
    as [-> | ->]; [|now right].
  cbn [obind]. rewrite truediv_nonzero by lia. cbn [obind].
  destruct (float_of_int_outcome (total_steps s - current_step s))
    as [-> | ->]; [|now right].
  cbn [obind].
  destruct (timedelta_seconds_outcome
              (inject_Z (total_steps s - current_step s)
               * (total_seconds
                    (timestamp (last (e1 :: r) e0) - timestamp e0)
                  / inject_Z (step (last (e1 :: r) e0) - step e0))))
    as [[td ->]| ->]; [left; simpl; eauto|now right].
Qed.

(** [to_dict] answers the snapshot built around the ETA, and raises only
    what [estimate_eta] and [progress_percent] raise. *)
Lemma to_dict_run s :
  to_dict s
  = obind (estimate_eta s) (fun eta =>
    obind (progress_percent s) (fun _ => Return (snapshot s eta))).
Proof.
  unfold to_dict. destruct (estimate_eta s) as [eta|e]; [|reflexivity].
  cbn [obind].
  now destruct (progress_percent_outcome s) as [-> | ->].
Qed.

Lemma to_dict_outcome s :
  (exists eta, estimate_eta s = Return eta
               /\ to_dict s = Return (snapshot s eta))
  \/ to_dict s = Raise OverflowError.
Proof.
  rewrite to_dict_run.
  destruct (estimate_eta_outcome s) as [[eta ->]| ->]; [|now right].
  cbn [obind].
  destruct (progress_percent_outcome s) as [-> | ->];
    [left; eauto|now right].
Qed.

(** A snapshot that is returned is the one built around the ETA. *)
Lemma to_dict_returns s snap :
  to_dict s = Return snap ->
  exists eta, estimate_eta s = Return eta /\ snap = snapshot s eta.
Proof.
  intros H. destruct (to_dict_outcome s) as [(eta & Heta & Hto)|Hto];
    rewrite Hto in H; [|discriminate].
  exists eta. split; [exact Heta|congruence].
Qed.

Lemma to_dict_all_outcome l :
  (exists snaps, to_dict_all l = Return snaps)
  \/ to_dict_all l = Raise OverflowError.
Proof.
  induction l as [|s r IH]; simpl; [left; eauto|].
  destruct (to_dict_outcome s) as [(eta & _ & ->)| ->]; [|now right].
  cbn [obind]. destruct IH as [[xs ->]| ->]; [left; simpl; eauto|now right].
Qed.

(** ** Sequences of calls *)


Lemma adds_to_update sid o : adds_to sid o = true -> is_update o = true.
Proof. destruct o; simpl; auto. Qed.

Lemma adds_to_target sid o : adds_to sid o = true -> target o = Some sid.
Proof.
  destruct o; simpl; try discriminate.
  intros H. apply String.eqb_eq in H. now subst.
Qed.

(** A run of [add_event] calls on one existing session: the events are
    appended in call order, each call takes two clock readings, and no
    other session is touched. *)
Lemma after_adds sid ops :
  forall w s,
    dict_get sid (_sessions w) = Some s ->
    forallb (adds_to sid) ops = true ->
    exists s',
      dict_get sid (_sessions (after_all ops w)) = Some s'
      /\ events s'
         = events s ++ arrivals (ticks (clock w)) (reads (clock w)) ops
      /\ total_steps s' = total_steps s
      /\ clock (after_all ops w) = advance (2 * List.length ops) (clock w)
      /\ (forall k, k <> sid ->
            dict_get k (_sessions (after_all ops w))
            = dict_get k (_sessions w)).
Proof.
  induction ops as [|o ops IH]; intros w s Hg Hall.
  - exists s. simpl. rewrite app_nil_r, advance_0. auto.
  - simpl in Hall. apply andb_prop in Hall as [Ho Hops].
    pose proof (after_update_found o sid s w (adds_to_update _ _ Ho)
                  (adds_to_target _ _ Ho) Hg) as Hrun.
    change (after_all (o :: ops) w) with (after_all ops (after o w)).
    remember (after o w) as w1 eqn:Hw1.
    assert (Hs1 : _sessions w1
                  = dict_set sid (updated o (clock w) s) (_sessions w))
      by (subst w1; unfold after; now rewrite Hrun).
    assert (Hc1 : clock w1 = advance (readings o) (clock w))
      by (subst w1; unfold after; now rewrite Hrun).
    assert (Hg1 : dict_get sid (_sessions w1) = Some (updated o (clock w) s))
      by (rewrite Hs1; apply dict_get_set_same).
    destruct (IH _ _ Hg1 Hops) as (s' & Hg' & Hev & Htot & Hclk & Hoth).
    exists s'. split; [exact Hg'|].
    rewrite Hc1 in Hev, Hclk.
    destruct o; simpl in Ho; try discriminate.
    cbn [updated readings appended events total_steps arrivals advance
         ticks reads] in *.
    repeat split.
    + rewrite Hev, <- app_assoc. simpl. repeat f_equal; lia.
    + exact Htot.
    + rewrite Hclk. unfold advance. simpl. f_equal. lia.
    + intros k Hk. rewrite Hoth by assumption. rewrite Hs1.
      now apply dict_get_set_other.
Qed.

Lemma add_event_run sid st lo ep lr gn tps mem w s :
  dict_get sid (_sessions w) = Some s ->
  add_event sid st lo ep lr gn tps mem w
  = (Return true,
     mkWorld
       (dict_set sid
          (appended s
             (mkEvent st lo ep lr (ticks (clock w) (reads (clock w)))
                gn tps mem)
             (ticks (clock w) (S (reads (clock w)))))
          (_sessions w))
       (advance 2 (clock w))).
Proof.
  destruct w as [d c]. simpl. intros Hg.
  unfold add_event, bind, read_sessions. simpl. rewrite Hg.
  unfold bind, with_clock, new_event, bind, utcnow, ret. simpl.
  rewrite session_add_event_run. unfold write_sessions, advance. simpl.
  repeat f_equal. lia.
Qed.

Lemma add_event_missing sid st lo ep lr gn tps mem w :
  dict_get sid (_sessions w) = None ->
  add_event sid st lo ep lr gn tps mem w = (Return false, w).
Proof.
  intros Hg. unfold add_event, bind, read_sessions. simpl. now rewrite Hg.
Qed.

Lemma complete_session_missing sid w :
  dict_get sid (_sessions w) = None ->
  complete_session sid w = (Return false, w).
Proof.
  intros Hg. unfold complete_session, bind, read_sessions. simpl.
  now rewrite Hg.
Qed.

Lemma fail_session_missing sid err w :
  dict_get sid (_sessions w) = None ->
  fail_session sid err w = (Return false, w).
Proof.
  intros Hg. unfold fail_session, bind, read_sessions. simpl.
  now rewrite Hg.
Qed.

(** ** C3: events are returned in arrival order *)


Lemma get_events_run sid since w s :
  dict_get sid (_sessions w) = Some s ->
  get_events sid since w
  = (Return
       (map event_to_dict
          match since with
          | Some k => filter (fun e => k <? step e) (events s)
          | None => events s
          end),
     w).
Proof.
  intros Hg. unfold get_events, bind, read_sessions. simpl. now rewrite Hg.
Qed.

Lemma arrival_dicts_run t ops :
  forall n, map event_to_dict (arrivals t n ops) = arrival_dicts t n ops.
Proof.
  induction ops as [|o ops IH]; intros n; [reflexivity|].
  destruct o; simpl; try apply IH. unfold event_to_dict at 1. simpl.
  f_equal. apply IH.
Qed.

Lemma arrival_dicts_steps sid t ops :
  forallb (adds_to sid) ops = true ->
  forall n, map EventDict.step (arrival_dicts t n ops) = map call_step ops.
Proof.
  induction ops as [|o ops IH]; intros Hall n; [reflexivity|].
  simpl in Hall. apply andb_prop in Hall as [Ho Hops].
  destruct o; simpl in Ho; try discriminate.
  simpl. f_equal. now apply IH.
Qed.

Lemma filter_event_dicts (l : list TrainingEvent) (k : Z) :
  filter (fun d => k <? EventDict.step d) (map event_to_dict l)
  = map event_to_dict (filter (fun e => k <? step e) l).
Proof.
  induction l as [|e l IH]; simpl; [reflexivity|].
  destruct (k <? step e); simpl; now rewrite IH.
Qed.

(** C3: after any sequence of [add_event] calls on a session,
    [get_events] without [since_step] returns the entries it returned
    before the calls (one per stored event, field by field, in stored
    order) followed by one entry per call, in call order, each holding
    the step, loss, epoch, learning rate and optional metrics the call
    reported and the clock reading taken on its receipt; the steps of
    the returned entries are therefore the stored steps followed by the
    steps of the calls in call order, whatever their values.  With
    [since_step = k] it returns that same list with the entries of step
    at most [k] removed: the order is kept and repeated steps are
    kept. *)
Theorem C3_get_events_arrival_order (w : World) (sid : string)
    (s : TrainingSession) (ops : list Op) (k : Z) :
  dict_get sid (_sessions w) = Some s ->
  forallb (adds_to sid) ops = true ->
  let w' := after_all ops w in
  let before :=
    map (fun e => EventDict.mk (step e) (loss e) (epoch e) (learning_rate e)
                    (timestamp e) (grad_norm e) (tokens_per_second e)
                    (gpu_memory_used e)) (events s) in
  let all :=
    before ++ arrival_dicts (ticks (clock w)) (reads (clock w)) ops in
  get_events sid None w = (Return before, w)
  /\ get_events sid None w' = (Return all, w')
  /\ get_events sid (Some k) w'
     = (Return (filter (fun d => k <? EventDict.step d) all), w')
  /\ map EventDict.step all = map step (events s) ++ map call_step ops
  /\ List.length all = (List.length (events s) + List.length ops)%nat.
Proof.
  intros Hg Hall w' before all.
  destruct (after_adds sid ops w s Hg Hall) as (s' & Hg' & Hev & _).
  assert (Hall' : map event_to_dict (events s') = all).
  { rewrite Hev, map_app, arrival_dicts_run. reflexivity. }
  split; [exact (get_events_run sid None w s Hg)|].
  split; [rewrite (get_events_run sid None w' s' Hg'); now rewrite Hall'|].
  split.
  { rewrite (get_events_run sid (Some k) w' s' Hg').
    now rewrite <- filter_event_dicts, Hall'. }
  assert (Hsteps : map EventDict.step all
                   = map step (events s) ++ map call_step ops).
  { unfold all, before. rewrite map_app, map_map. cbn [EventDict.step].
    now rewrite (arrival_dicts_steps sid). }
  split; [exact Hsteps|].
  rewrite <- (length_map EventDict.step), Hsteps, length_app, !length_map.
  reflexivity.
Qed.

(** Four reports with steps 30, 10, 30, 20 on a session without events:
    they come back in that order, and with [since_step = 10] as 30, 30,
    20. *)
Lemma C3_get_events_arrival_order_witness :
  (dict_get "s1" (_sessions world_started) = Some session_started
   /\ forallb (adds_to "s1") calls_out_of_order = true)
  /\ (let w' := after_all calls_out_of_order world_started in
      get_events "s1" None w'
      = (Return
           [EventDict.mk 30 (9 # 10) 0 (1 # 5000) (2 * usec_per_sec)
              None None None;
            EventDict.mk 10 (8 # 10) 0 (1 # 5000) (4 * usec_per_sec)
              None None None;
            EventDict.mk 30 (7 # 10) 0 (1 # 5000) (6 * usec_per_sec)
              None None None;
            EventDict.mk 20 (6 # 10) 0 (1 # 5000) (8 * usec_per_sec)
              None None None], w')
      /\ get_events "s1" (Some 10) w'
         = (Return
              [EventDict.mk 30 (9 # 10) 0 (1 # 5000) (2 * usec_per_sec)
                 None None None;
               EventDict.mk 30 (7 # 10) 0 (1 # 5000) (6 * usec_per_sec)
                 None None None;
               EventDict.mk 20 (6 # 10) 0 (1 # 5000) (8 * usec_per_sec)
                 None None None], w')).
Proof.
  split; [split; reflexivity|].
  destruct (C3_get_events_arrival_order world_started "s1" session_started
              calls_out_of_order 10 eq_refl eq_refl)
    as (_ & Hall & Hsince & _).
  split; [exact Hall|exact Hsince].
Defined.

(** ** C4: the first event starts the session *)




(** ** C5: calls on an unknown session id *)

(** C5: when no session is bound to the id, [add_event],
    [complete_session] and [fail_session] return [False] without raising,
    and leave the tracker (its session dictionary, and the clock, which
    they do not even read) exactly as it was. *)
Theorem C5_unknown_session_is_refused (w : World) (sid : string)
    (st : Z) (lo : Q) (ep : Z) (lr : Q) (gn tps mem : option Q)
    (err : string) :
  dict_get sid (_sessions w) = None ->
  add_event sid st lo ep lr gn tps mem w = (Return false, w)
  /\ complete_session sid w = (Return false, w)
  /\ fail_session sid err w = (Return false, w).
Proof.
  intros Hg. repeat split.
  - now apply add_event_missing.
  - now apply complete_session_missing.
  - now apply fail_session_missing.
Qed.

Lemma C5_unknown_session_is_refused_witness :
  dict_get "s2" (_sessions world_started) = None
  /\ add_event "s2" 10 (12 # 10) 0 (1 # 5000) None None None world_started
     = (Return false, world_started)
  /\ complete_session "s2" world_started = (Return false, world_started)
  /\ fail_session "s2" "OOM error" world_started
     = (Return false, world_started).
Proof.
  split; [reflexivity|].
  apply (C5_unknown_session_is_refused world_started "s2"
           10 (12 # 10) 0 (1 # 5000) None None None "OOM error").
  reflexivity.
Defined.

(** ** C10: queries are read-only *)

Lemma get_status_frame sid w : snd (get_status sid w) = w.
Proof.
  unfold get_status, bind, read_sessions, lift. simpl.
  destruct (dict_get sid (_sessions w)) as [s|]; [|reflexivity].
  now destruct (to_dict s).
Qed.

Lemma get_events_frame sid since w : snd (get_events sid since w) = w.
Proof.
  unfold get_events, bind, read_sessions. simpl.
  now destruct (dict_get sid (_sessions w)).
Qed.

Lemma get_latest_frame sid w : snd (get_latest sid w) = w.
Proof.
  unfold get_latest, bind, read_sessions. simpl.
  destruct (dict_get sid (_sessions w)) as [s|]; [|reflexivity].
  now destruct (events s).
Qed.

Lemma after_query o w : is_query o = true -> after o w = w.
Proof.
  unfold after. destruct o; simpl; try discriminate; intros _; unfold bind.
  - pose proof (get_status_frame session_id0 w) as H.
    destruct (get_status session_id0 w) as [[x|e] w']; simpl in *; now subst.
  - pose proof (get_events_frame session_id0 since_step w) as H.
    destruct (get_events session_id0 since_step w) as [[x|e] w'];
      simpl in *; now subst.
  - pose proof (get_latest_frame session_id0 w) as H.
    destruct (get_latest session_id0 w) as [[x|e] w']; simpl in *; now subst.
Qed.

(** [get_status] on a registered session answers what [to_dict]
    answers, and raises what it raises. *)
Lemma get_status_run sid w s :
  dict_get sid (_sessions w) = Some s ->
  get_status sid w
  = (obind (to_dict s) (fun snap => Return (Some snap)), w).
Proof.
  intros Hg. unfold get_status, bind, read_sessions, lift. simpl.
  rewrite Hg. now destruct (to_dict s).
Qed.

Lemma get_latest_run sid w s :
  dict_get sid (_sessions w) = Some s ->
  get_latest sid w
  = (Return match events s with
            | [] => None
            | e :: r => Some (event_to_dict (last r e))
            end, w).
Proof.
  intros Hg. unfold get_latest, bind, read_sessions. simpl. rewrite Hg.
  now destruct (events s).
Qed.

(** C10: [get_status], [get_events] and [get_latest] return the world
    they were given, unchanged: no session field, no event list, not even
    the clock is touched, and no sweep runs; so is any sequence of such
    queries.  A session bound in the dictionary is therefore answered by
    all three whatever its [_last_activity] and whatever the clock shows:
    nothing in these calls looks at either.  ([get_status] answers what
    [to_dict] answers: the snapshot, unless the ETA or the percentage is
    out of the range of [timedelta] or of [float], in which case the
    [OverflowError] comes through; it never answers [None] for a
    registered session.) *)
Theorem C10_queries_are_read_only (w : World) (sid : string)
    (since : option Z) :
  snd (get_status sid w) = w
  /\ snd (get_events sid since w) = w
  /\ snd (get_latest sid w) = w
  /\ (forall qs, forallb is_query qs = true -> after_all qs w = w)
  /\ (forall s,
        dict_get sid (_sessions w) = Some s ->
        get_status sid w
        = (obind (to_dict s) (fun snap => Return (Some snap)), w)
        /\ ((exists snap,
               to_dict s = Return snap
               /\ get_status sid w = (Return (Some snap), w))
            \/ (to_dict s = Raise OverflowError
                /\ get_status sid w = (Raise OverflowError, w)))
        /\ get_events sid since w
           = (Return
                (map event_to_dict
                   match since with
                   | Some k => filter (fun e => k <? step e) (events s)
                   | None => events s
                   end), w)
        /\ get_latest sid w
           = (Return match events s with
                     | [] => None
                     | e :: r => Some (event_to_dict (last r e))
                     end, w)).
Proof.
  split; [apply get_status_frame|].
  split; [apply get_events_frame|].
  split; [apply get_latest_frame|].
  split.
  - induction qs as [|q qs IH]; intros Hall; [reflexivity|].
    simpl in Hall. apply andb_prop in Hall as [Hq Hqs].
    simpl. rewrite (after_query q w Hq). now apply IH.
  - intros s Hg. split; [now apply get_status_run|].
    split; [|split; [now apply get_events_run | now apply get_latest_run]].
    rewrite (get_status_run sid w s Hg).
    destruct (to_dict_outcome s) as [(eta & _ & ->)| ->];
      [left; eauto|now right].
Qed.

Lemma C10_queries_are_read_only_witness :
  (expired_at (ticks (clock world_stale) 0) session_started = true
   /\ dict_get "s1" (_sessions world_stale) = Some session_started
   /\ forallb is_query [GetStatus "s1"; GetEvents "s1" None; GetLatest "s1"]
      = true)
  /\ after_all [GetStatus "s1"; GetEvents "s1" None; GetLatest "s1"]
       world_stale = world_stale
  /\ exists snap,
       get_status "s1" world_stale = (Return (Some snap), world_stale).
Proof.
  split; [repeat split; reflexivity|].
  destruct (C10_queries_are_read_only world_stale "s1" None)
    as (_ & _ & _ & Hqs & Hs).
  split; [apply Hqs; reflexivity|].
  destruct (Hs session_started eq_refl) as (Hrun & _).
  destruct (to_dict session_started) as [snap|e] eqn:Hsnap;
    [|vm_compute in Hsnap; discriminate].
  exists snap. exact Hrun.
Defined.

(** ** Calls that sweep *)

Lemma start_session_run sid jid mid ts te w :
  dict_wf (_sessions w) ->
  let t := ticks (clock w) in
  let n := reads (clock w) in
  let d := _sessions w in
  let s := fresh t (n + List.length d) sid jid mid ts te in
  start_session sid jid mid ts te w
  = (Return s,
     mkWorld (dict_set sid s (swept t n d))
             (advance (List.length d + 2) (clock w))).
Proof.
  intros Hwf t n d s.
  unfold start_session, bind. rewrite (_cleanup_expired_run w Hwf).
  unfold with_clock. cbn [clock _sessions].
  rewrite new_session_run. unfold read_sessions, write_sessions, ret.
  cbn [clock _sessions advance ticks reads].
  rewrite advance_advance. reflexivity.
Qed.

Lemma list_sessions_run w :
  dict_wf (_sessions w) ->
  let t := ticks (clock w) in
  let n := reads (clock w) in
  let d := _sessions w in
  list_sessions w
  = (to_dict_all (dict_values (swept t n d)),
     mkWorld (swept t n d) (advance (List.length d) (clock w))).
Proof.
  intros Hwf t n d.
  unfold list_sessions, bind. rewrite (_cleanup_expired_run w Hwf).
  reflexivity.
Qed.

(** Distinct keys are an invariant of the tracker. *)
Lemma after_wf o w : dict_wf (_sessions w) -> dict_wf (_sessions (after o w)).
Proof.
  intros Hwf.
  destruct (is_update o) eqn:Hu.
  - destruct (update_has_target o Hu) as [k Hk]. unfold after.
    destruct (dict_get k (_sessions w)) as [s|] eqn:Hg.
    + rewrite (after_update_found o k s w Hu Hk Hg). simpl.
      now apply dict_set_wf.
    + now rewrite (after_update_missing o k w Hu Hk Hg).
  - destruct (is_query o) eqn:Hq; [now rewrite after_query|].
    destruct o; try discriminate; unfold after, run_op, bind.
    + rewrite (start_session_run _ _ _ _ _ w Hwf). simpl.
      apply dict_set_wf. now apply swept_wf.
    + rewrite (list_sessions_run w Hwf).
      destruct (to_dict_all _); simpl; now apply swept_wf.
Qed.

Lemma after_all_wf ops w :
  dict_wf (_sessions w) -> dict_wf (_sessions (after_all ops w)).
Proof.
  revert w. induction ops as [|o ops IH]; intros w Hwf; [exact Hwf|].
  simpl. apply IH. now apply after_wf.
Qed.

(** Every world reached from a new tracker has distinct keys. *)
Lemma reachable_wf c ops :
  dict_wf (_sessions (after_all ops (TrainingTracker_new c))).
Proof. apply after_all_wf. constructor. Qed.

(** ** C7: start_session sweeps, then binds a fresh Pending session *)

(** C7: [start_session] never raises (in particular there is no
    already-exists error).  It first runs the expiry sweep, which leaves
    the dictionary [swept ...] after one clock reading per session; it
    then builds a fresh session (status Pending, no events, no start or
    completion time, timestamps read after the sweep), binds the id to it
    and returns it.  Whatever was bound to the id before, expired or
    not, is replaced; the other ids are left as the sweep left them. *)
Theorem C7_start_session_overwrites (w : World) (sid jid mid : string)
    (ts te : Z) :
  dict_wf (_sessions w) ->
  let t := ticks (clock w) in
  let n := reads (clock w) in
  let d := _sessions w in
  let s := fresh t (n + List.length d) sid jid mid ts te in
  let w' := snd (start_session sid jid mid ts te w) in
  fst (start_session sid jid mid ts te w) = Return s
  /\ status s = PENDING
  /\ events s = []
  /\ (exists k,
        _cleanup_expired w
        = (Return k,
           mkWorld (swept t n d) (advance (List.length d) (clock w))))
  /\ w' = mkWorld (dict_set sid s (swept t n d))
                  (advance (List.length d + 2) (clock w))
  /\ dict_get sid (_sessions w') = Some s
  /\ (forall k, k <> sid ->
        dict_get k (_sessions w') = dict_get k (swept t n d)).
Proof.
  intros Hwf t n d s w'. subst w'.
  rewrite (start_session_run sid jid mid ts te w Hwf).
  cbn [fst snd _sessions]. fold t n d s.
  split; [reflexivity|]. split; [reflexivity|]. split; [reflexivity|].
  split; [eexists; now apply _cleanup_expired_run|].
  split; [reflexivity|].
  split; [apply dict_get_set_same|].
  intros k Hk. now apply dict_get_set_other.
Qed.

(** Restarting "s1" in [world_two]: the sweep (readings 05:00 and 06:00)
    has dropped the old "s1" and kept "s2"; the new "s1" is created at
    07:00, Pending and empty, and goes last in the dictionary. *)
Lemma C7_start_session_overwrites_witness :
  dict_wf (_sessions world_two)
  /\ dict_get "s1" (_sessions world_two) = Some session_one
  /\ exists s,
       fst (start_session "s1" "j9" "m9" 50 1 world_two) = Return s
       /\ status s = PENDING
       /\ events s = []
       /\ created_at s = 7 * 3600 * usec_per_sec
       /\ dict_keys
            (_sessions (snd (start_session "s1" "j9" "m9" 50 1 world_two)))
          = ["s2"%string; "s1"%string].
Proof.
  split; [apply reachable_wf|]. split; [reflexivity|].
  destruct (C7_start_session_overwrites world_two "s1" "j9" "m9" 50 1
              (reachable_wf clock_1h _))
    as (Hret & Hst & Hev & _ & Hw & _).
  eexists. split; [exact Hret|]. split; [exact Hst|]. split; [exact Hev|].
  split; [reflexivity|]. rewrite Hw. reflexivity.
Defined.

(** ** C6: expiry and the sweep *)





(** ** C8: progress percentage *)

Lemma last_cons_default {A} (l : list A) (a d : A) :
  last (a :: l) d = last l a.
Proof.
  revert a d. induction l as [|b l IH]; intros a d; [reflexivity|].
  change (last (a :: b :: l) d) with (last (b :: l) d).
  now rewrite (IH b d), (IH b a).
Qed.

Lemma last_map {A B} (f : A -> B) (l : list A) (d : A) :
  f (last l d) = last (map f l) (f d).
Proof.
  revert d. induction l as [|a l IH]; intros d; [reflexivity|].
  rewrite last_cons_default. simpl map. rewrite last_cons_default.
  apply IH.
Qed.

Lemma last_app_default {A} (l1 l2 : list A) (d : A) :
  last (l1 ++ l2) d = last l2 (last l1 d).
Proof.
  revert d. induction l1 as [|a l1 IH]; intros d; [reflexivity|].
  simpl app. rewrite !last_cons_default. apply IH.
Qed.

Lemma current_step_last s :
  current_step s = last (map step (events s)) 0.
Proof.
  unfold current_step. destruct (events s) as [|e r]; [reflexivity|].
  simpl map. rewrite last_cons_default. apply last_map.
Qed.





Lemma last_nonempty_indep {A} (l : list A) (d d' : A) :
  l <> [] -> last l d = last l d'.
Proof.
  destruct l as [|a l]; [congruence|]. intros _.
  now rewrite !last_cons_default.
Qed.






(** ** C2: the ETA estimate *)

Lemma estimate_eta_few_events s :
  (List.length (events s) < 2)%nat -> estimate_eta s = Return None.
Proof.
  intros H. unfold estimate_eta.
  destruct (Nat.ltb_spec (List.length (events s)) 2); [reflexivity|lia].
Qed.

(** With two events or more the window holds the last [min(20, N)]
    events, at least two. *)
Lemma window_length s :
  List.length (window s) = Nat.min 20 (List.length (events s)).
Proof.
  unfold window, slice_last. rewrite length_skipn. lia.
Qed.

(** What [estimate_eta] returns from two events on: nothing when the
    window's steps do not advance, otherwise the remaining steps
    ([total_steps - current_step], as it stands, whatever its sign) times
    the seconds per step of the window, as a [timedelta]. *)
Lemma estimate_eta_run s e0 r :
  (2 <= List.length (events s))%nat ->
  window s = e0 :: r ->
  let e1 := last r e0 in
  estimate_eta s
  = if step e1 - step e0 <=? 0 then Return None
    else
      obind (float_of_int (step e1 - step e0)) (fun steps_diff =>
      obind (float_of_int (total_steps s - current_step s)) (fun remaining =>
      obind (timedelta_seconds
               (remaining
                * (total_seconds (timestamp e1 - timestamp e0) / steps_diff)))
            (fun eta => Return (Some eta)))).
Proof.
  intros Hlen Hwin e1. unfold estimate_eta.
  destruct (Nat.ltb_spec (List.length (events s)) 2); [lia|].
  fold (window s). pose proof (window_length s) as Hwl.
  rewrite Hwin in *.
  destruct r as [|e r];
    [change (List.length [e0]) with 1%nat in Hwl; lia|].
  fold e1. destruct (Z.leb_spec (step e1 - step e0) 0); [reflexivity|].
  destruct (float_of_int_outcome (step e1 - step e0)) as [-> | ->];
    [|reflexivity].
  cbn [obind]. now rewrite truediv_nonzero by lia.
Qed.

(** The duration [estimate_eta] returns, when it returns one. *)
Lemma estimate_eta_value s e0 r td :
  (2 <= List.length (events s))%nat ->
  window s = e0 :: r ->
  estimate_eta s = Return (Some td) ->
  let e1 := last r e0 in
  0 < step e1 - step e0
  /\ td = round_half_even
            (inject_Z (total_steps s - current_step s)
             * (total_seconds (timestamp e1 - timestamp e0)
                / inject_Z (step e1 - step e0))
             * inject_Z usec_per_sec).
Proof.
  intros Hlen Hwin Heta e1.
  rewrite (estimate_eta_run s e0 r Hlen Hwin) in Heta. fold e1 in Heta.
  destruct (Z.leb_spec (step e1 - step e0) 0) as [|Hpos]; [discriminate|].
  split; [exact Hpos|].
  destruct (float_of_int_outcome (step e1 - step e0)) as [H | H];
    rewrite H in Heta; [|discriminate].
  cbn [obind] in Heta.
  destruct (float_of_int_outcome (total_steps s - current_step s))
    as [H' | H']; rewrite H' in Heta; [|discriminate].
  cbn [obind] in Heta. unfold timedelta_seconds in Heta.
  destruct (_ && _); [|discriminate].
  cbn [obind] in Heta. congruence.
Qed.

Lemma estimate_eta_no_advance s e0 r :
  (2 <= List.length (events s))%nat ->
  window s = e0 :: r ->
  step (last r e0) - step e0 <= 0 ->
  estimate_eta s = Return None.
Proof.
  intros Hlen Hwin Hle. rewrite (estimate_eta_run s e0 r Hlen Hwin).
  now destruct (Z.leb_spec (step (last r e0) - step e0) 0); [|lia].
Qed.

(** C2, the code at a failing input.  The session has [total_steps = 10]
    and two events, step 10 at 00:00:02 and step 20 at 00:00:04: the
    window advances by 10 steps in 2 seconds, 0.2 s per step, and
    [current_step = 20] exceeds [total_steps].  [estimate_eta] multiplies
    the remaining steps, 10 - 20 = -10, by 0.2 and returns a timedelta of
    minus two seconds; [get_status] reports [eta_seconds = -2.0] and
    [eta_formatted = "-2s"].  The claimed value is
    [max(0, 10 - 20) * 0.2 = 0], and never negative. *)
Theorem C2_eta_is_negative_past_total :
  dict_get "s1" (_sessions world_overshoot) = Some session_overshoot
  /\ total_steps session_overshoot = 10
  /\ current_step session_overshoot = 20
  /\ estimate_eta session_overshoot = Return (Some (- 2 * usec_per_sec))
  /\ exists snap,
       get_status "s1" world_overshoot = (Return (Some snap), world_overshoot)
       /\ StatusDict.eta_seconds snap = Some (-2000000 # 1000000)
       /\ StatusDict.eta_formatted snap = Some "-2s"%string
       /\ (-2000000 # 1000000 < 0)%Q.
Proof.
  assert (Hg : dict_get "s1" (_sessions world_overshoot)
               = Some session_overshoot) by (vm_compute; reflexivity).
  split; [exact Hg|]. split; [reflexivity|].
  split; [vm_compute; reflexivity|]. split; [vm_compute; reflexivity|].
  pose proof (get_status_run "s1" world_overshoot session_overshoot Hg)
    as Hrun.
  destruct (to_dict session_overshoot) as [snap|e] eqn:Hsnap;
    [|vm_compute in Hsnap; discriminate].
  exists snap. split; [exact Hrun|].
  vm_compute in Hsnap. injection Hsnap as <-.
  split; [reflexivity|]. split; reflexivity.
Qed.

(** The same two reports with [total_steps = 20]: the remaining time is
    zero.  [estimate_eta] returns [timedelta(0)], whose truth value is
    false, so the [if eta] of [to_dict] reports no ETA at all. *)
Lemma eta_zero_is_reported_absent :
  exists s snap,
    dict_get "s1" (_sessions world_at_total) = Some s
    /\ estimate_eta s = Return (Some 0)
    /\ get_status "s1" world_at_total = (Return (Some snap), world_at_total)
    /\ StatusDict.eta_seconds snap = None
    /\ StatusDict.eta_formatted snap = None.
Proof.
  assert (Hg : exists s, dict_get "s1" (_sessions world_at_total) = Some s
                         /\ estimate_eta s = Return (Some 0)
                         /\ option_map StatusDict.eta_seconds
                              (match to_dict s with
                               | Return x => Some x | Raise _ => None end)
                            = Some None
                         /\ option_map StatusDict.eta_formatted
                              (match to_dict s with
                               | Return x => Some x | Raise _ => None end)
                            = Some None).
  { eexists. split; [vm_compute; reflexivity|].
    repeat split; vm_compute; reflexivity. }
  destruct Hg as (s & Hg & Heta & Hsec & Hfmt).
  pose proof (get_status_run "s1" world_at_total s Hg) as Hrun.
  destruct (to_dict s) as [snap|e]; [|discriminate].
  exists s, snap. simpl in Hsec, Hfmt, Hrun.
  split; [exact Hg|]. split; [exact Heta|]. split; [exact Hrun|].
  split; congruence.
Qed.

(** ** C9: the terminal notification of the feed *)




(** C9, the code at a failing input.  The session was started and then
    failed before reporting any event.  Subscribing succeeds; on its
    first pass the generator fetches the Failed snapshot, finds no new
    events, skips the block that holds [import json], and raises
    [UnboundLocalError] where it builds the terminal notification:
    nothing has been yielded and the stream ends with an exception,
    whatever was scheduled next.  So does the scenario of a subscription
    opened on the Pending session, with [fail] called during the first
    sleep: the first pass yields nothing and sleeps, the second raises. *)
Theorem C9_terminal_notification_is_lost :
  status_of "s1" world_failed_early = Some FAILED
  /\ stream_training_events "s1" world_failed_early
     = (Return (mkFrame 0 false []), world_failed_early)
  /\ (forall during,
        event_generator "s1" during (mkFrame 0 false [], world_failed_early)
        = (Raise (UnboundLocalError "json"),
           (mkFrame 0 false [], world_failed_early)))
  /\ stream_training_events "s1" world_started
     = (Return (mkFrame 0 false []), world_started)
  /\ (let w := after (FailSession "s1" "CUDA out of memory") world_started in
      status_of "s1" w = Some FAILED
      /\ event_generator "s1" [[FailSession "s1" "CUDA out of memory"]]
           (mkFrame 0 false [], world_started)
         = (Raise (UnboundLocalError "json"), (mkFrame 0 false [], w))).
Proof.
  split; [vm_compute; reflexivity|]. split; [vm_compute; reflexivity|].
  split.
  - intros during.
    assert (H : event_generator_body "s1"
                  (mkFrame 0 false [], world_failed_early)
                = (Raise (UnboundLocalError "json"),
                   (mkFrame 0 false [], world_failed_early)))
      by (vm_compute; reflexivity).
    destruct during; unfold event_generator, bind; now rewrite H.
  - split; [vm_compute; reflexivity|].
    split; vm_compute; reflexivity.
Qed.

(** * Further properties of the tracker, the router and the feed *)

(** ** Snapshots *)

Lemma get_status_returns sid w s snap :
  dict_get sid (_sessions w) = Some s ->
  to_dict s = Return snap ->
  get_status sid w = (Return (Some snap), w).
Proof. intros Hg Hs. now rewrite (get_status_run sid w s Hg), Hs. Qed.

Lemma get_status_raises sid w s e :
  dict_get sid (_sessions w) = Some s ->
  to_dict s = Raise e ->
  get_status sid w = (Raise e, w).
Proof. intros Hg Hs. now rewrite (get_status_run sid w s Hg), Hs. Qed.

(** With fewer than two events there is no ETA to compute, and a step a
    float can hold gives a percentage. *)
Lemma to_dict_few_events s :
  (List.length (events s) < 2)%nat ->
  Z.abs (current_step s) < float_limit ->
  to_dict s = Return (snapshot s None).
Proof.
  intros Hlen Hfit. rewrite to_dict_run, estimate_eta_few_events by exact Hlen.
  cbn [obind]. now rewrite progress_percent_run.
Qed.

(** The ETA and the percentage depend on the events and on the
    announced total only. *)
Lemma estimate_eta_ext s s' :
  events s' = events s -> total_steps s' = total_steps s ->
  estimate_eta s' = estimate_eta s.
Proof. intros He Ht. unfold estimate_eta, current_step. now rewrite He, Ht. Qed.

Lemma progress_percent_ext s s' :
  events s' = events s -> total_steps s' = total_steps s ->
  progress_percent s' = progress_percent s.
Proof.
  intros He Ht. unfold progress_percent, current_step. now rewrite He, Ht.
Qed.

Lemma to_dict_ext s s' snap :
  events s' = events s -> total_steps s' = total_steps s ->
  to_dict s = Return snap ->
  exists eta, estimate_eta s = Return eta
              /\ to_dict s' = Return (snapshot s' eta).
Proof.
  intros He Ht H. destruct (to_dict_returns s snap H) as (eta & Heta & _).
  exists eta. split; [exact Heta|].
  rewrite to_dict_run in H. rewrite to_dict_run.
  rewrite (estimate_eta_ext s s' He Ht), (progress_percent_ext s s' He Ht).
  rewrite Heta in *. cbn [obind] in *.
  now destruct (progress_percent s).
Qed.

Lemma get_status_missing sid w :
  dict_get sid (_sessions w) = None -> get_status sid w = (Return None, w).
Proof.
  intros Hg. unfold get_status, bind, read_sessions. simpl. now rewrite Hg.
Qed.

(** ** Keys and session ids *)

Lemma ids_match_get d k s :
  ids_match d -> dict_get k d = Some s -> session_id s = k.
Proof.
  unfold ids_match. induction d as [|[k0 s0] r IH]; simpl; [discriminate|].
  intros Hall. inversion Hall as [|? ? Hhd Htl]; subst. simpl in Hhd.
  destruct (String.eqb_spec k k0) as [->|Hne].
  - now intros [= <-].
  - now apply IH.
Qed.

Lemma ids_match_set d k s :
  ids_match d -> session_id s = k -> ids_match (dict_set k s d).
Proof.
  unfold ids_match. intros Hall Hs.
  induction d as [|[k0 s0] r IH]; simpl.
  - now repeat constructor.
  - apply Forall_cons_iff in Hall as [Hhd Htl].
    destruct (String.eqb k k0); constructor; auto.
Qed.

Lemma ids_match_swept t n d : ids_match d -> ids_match (swept t n d).
Proof.
  unfold ids_match. revert n.
  induction d as [|[k0 s0] r IH]; intros n Hall; simpl; [constructor|].
  inversion Hall as [|? ? Hhd Htl]; subst.
  destruct (expired_at (t n) s0); [now apply IH|].
  constructor; [assumption|now apply IH].
Qed.

Lemma session_id_updated o c s : session_id (updated o c s) = session_id s.
Proof. now destruct o. Qed.

Lemma after_ids_match o w :
  dict_wf (_sessions w) -> ids_match (_sessions w) ->
  ids_match (_sessions (after o w)).
Proof.
  intros Hwf Hids.
  destruct (is_update o) eqn:Hu.
  - destruct (update_has_target o Hu) as [k Hk]. unfold after.
    destruct (dict_get k (_sessions w)) as [s|] eqn:Hg.
    + rewrite (after_update_found o k s w Hu Hk Hg). simpl.
      apply ids_match_set; [assumption|].
      rewrite session_id_updated. now apply (ids_match_get (_sessions w)).
    + now rewrite (after_update_missing o k w Hu Hk Hg).
  - destruct (is_query o) eqn:Hq; [now rewrite after_query|].
    destruct o; try discriminate; unfold after, run_op, bind.
    + rewrite (start_session_run _ _ _ _ _ w Hwf). simpl.
      apply ids_match_set; [now apply ids_match_swept|reflexivity].
    + rewrite (list_sessions_run w Hwf).
      destruct (to_dict_all _); simpl; now apply ids_match_swept.
Qed.

Lemma reachable_ids_match c ops :
  ids_match (_sessions (after_all ops (TrainingTracker_new c))).
Proof.
  assert (H : forall w, dict_wf (_sessions w) -> ids_match (_sessions w) ->
                        ids_match (_sessions (after_all ops w))).
  { induction ops as [|o ops IH]; intros w Hwf Hids; [exact Hids|].
    simpl. apply IH; [now apply after_wf|now apply after_ids_match]. }
  apply H; constructor.
Qed.

(** The [OverflowError] is within reach of the endpoints: with
    [total_steps = 10 ** 15] and two reports at 0.2 s per step the ETA
    is some 2e14 seconds, more than a [timedelta] holds.  The status
    query, the status endpoint, the listing and the feed all raise. *)
Lemma eta_overflow_is_reachable :
  get_status "s1" world_huge_total = (Raise OverflowError, world_huge_total)
  /\ get_training_status "s1" world_huge_total
     = (Raise OverflowError, world_huge_total)
  /\ fst (list_sessions world_huge_total) = Raise OverflowError
  /\ event_generator "s1" [] (mkFrame 0 false [], world_huge_total)
     = (Raise OverflowError, (mkFrame 0 false [], world_huge_total)).
Proof.
  split; [vm_compute; reflexivity|]. split; [vm_compute; reflexivity|].
  split; vm_compute; reflexivity.
Qed.

(** X1: in every state the tracker can reach from its creation, whatever
    calls were made, [get_status(sid)] leaves the tracker as it is and
    ends in one of three ways: the id is not registered and the answer
    is nothing; or the answer is the snapshot of the session registered
    under [sid], and its ["session_id"] is [sid]; or the snapshot of that
    session cannot be computed (its ETA or its percentage is out of
    range) and the call raises [OverflowError].  No other exception is
    possible. *)
Theorem X1_status_names_the_session (c : Clock) (ops : list Op)
    (sid : string) :
  let w := after_all ops (TrainingTracker_new c) in
  (dict_get sid (_sessions w) = None
   /\ get_status sid w = (Return None, w))
  \/ (exists s snap,
        dict_get sid (_sessions w) = Some s
        /\ to_dict s = Return snap
        /\ get_status sid w = (Return (Some snap), w)
        /\ StatusDict.session_id snap = sid)
  \/ (exists s,
        dict_get sid (_sessions w) = Some s
        /\ to_dict s = Raise OverflowError
        /\ get_status sid w = (Raise OverflowError, w)).
Proof.
  intros w.
  destruct (dict_get sid (_sessions w)) as [s|] eqn:Hg.
  - right. destruct (to_dict_outcome s) as [(eta & _ & Hto)|Hto].
    + left. exists s, (snapshot s eta). split; [reflexivity|].
      split; [exact Hto|].
      split; [now apply (get_status_returns sid w s)|]. simpl.
      apply (ids_match_get (_sessions w)); [apply reachable_ids_match|exact Hg].
    + right. exists s. split; [reflexivity|]. split; [exact Hto|].
      now apply (get_status_raises sid w s).
  - left. split; [reflexivity|now apply get_status_missing].
Qed.

Lemma complete_session_run sid w s :
  dict_get sid (_sessions w) = Some s ->
  complete_session sid w
  = (Return true,
     mkWorld (dict_set sid (completed s (ticks (clock w) (reads (clock w))))
                (_sessions w))
             (advance 1 (clock w))).
Proof.
  destruct w as [d c]. simpl. intros Hg.
  unfold complete_session, bind, read_sessions. simpl. rewrite Hg.
  unfold ret, completed, advance. simpl. now rewrite Nat.add_1_r.
Qed.

Lemma fail_session_run sid err w s :
  dict_get sid (_sessions w) = Some s ->
  fail_session sid err w
  = (Return true,
     mkWorld (dict_set sid (failed s err (ticks (clock w) (reads (clock w))))
                (_sessions w))
             (advance 1 (clock w))).
Proof.
  destruct w as [d c]. simpl. intros Hg.
  unfold fail_session, bind, read_sessions. simpl. rewrite Hg.
  unfold ret, failed, advance. simpl. now rewrite Nat.add_1_r.
Qed.

Lemma round_half_even_comp (x y : Q) :
  (x == y)%Q -> round_half_even x = round_half_even y.
Proof.
  intros H. unfold round_half_even.
  rewrite (Qfloor_comp x y H).
  assert (Hc : ((x - inject_Z (Qfloor y)) ?= (1 # 2))%Q
               = ((y - inject_Z (Qfloor y)) ?= (1 # 2))%Q).
  { apply Qcompare_comp; [now rewrite H|reflexivity]. }
  now rewrite Hc.
Qed.

Lemma percent_at_zero total : (percent total 0 == 0)%Q.
Proof.
  unfold percent. destruct (total =? 0); [reflexivity|].
  assert (H : (inject_Z 0 / inject_Z total * 100 == 0)%Q)
    by (unfold Qdiv; now rewrite !Qmult_0_l).
  rewrite H. reflexivity.
Qed.

Lemma round2_zero (x : Q) : (x == 0)%Q -> round2 x = (0 # 100)%Q.
Proof.
  intros H. unfold round2.
  rewrite (round_half_even_comp (x * 100) 0); [reflexivity|].
  now rewrite H.
Qed.

Lemma snoc_last {A B} (f : A -> B) (d : B) (l : list A) (x : A) :
  match l ++ [x] with
  | [] => d
  | e :: r => f (last r e)
  end = f x.
Proof.
  destruct l as [|a l]; [reflexivity|].
  change (f (last (l ++ [x]) a) = f x). f_equal. apply last_last.
Qed.

(** ** Start, report, finish: what the queries then answer *)

(** X2: right after [start_session(sid, ...)], [get_status(sid)] answers
    a snapshot with status "pending", the targets given, step 0, epoch
    0, progress 0, no loss, no ETA, no events, no start or completion
    time and no error message: whatever session the id named before
    leaves no trace in it. *)
Theorem X2_start_then_status (w : World) (sid jid mid : string)
    (ts te : Z) :
  dict_wf (_sessions w) ->
  let w' := snd (start_session sid jid mid ts te w) in
  exists snap,
    get_status sid w' = (Return (Some snap), w')
    /\ StatusDict.session_id snap = sid
    /\ StatusDict.job_id snap = jid
    /\ StatusDict.model_id snap = mid
    /\ StatusDict.status snap = "pending"%string
    /\ StatusDict.total_steps snap = ts
    /\ StatusDict.total_epochs snap = te
    /\ StatusDict.current_step snap = 0
    /\ StatusDict.current_epoch snap = 0
    /\ (StatusDict.progress_percent snap == 0)%Q
    /\ StatusDict.latest_loss snap = None
    /\ StatusDict.eta_seconds snap = None
    /\ StatusDict.eta_formatted snap = None
    /\ StatusDict.started_at snap = None
    /\ StatusDict.completed_at snap = None
    /\ StatusDict.error_message snap = None
    /\ StatusDict.event_count snap = 0%nat.
Proof.
  intros Hwf w'. subst w'.
  rewrite (start_session_run sid jid mid ts te w Hwf). cbn [snd].
  set (s := fresh _ _ sid jid mid ts te).
  set (w' := mkWorld _ _).
  assert (Hg : dict_get sid (_sessions w') = Some s)
    by apply dict_get_set_same.
  assert (Hto : to_dict s = Return (snapshot s None))
    by (apply to_dict_few_events; [simpl; lia|apply float_limit_pos]).
  eexists. split; [exact (get_status_returns sid w' s _ Hg Hto)|].
  cbn. repeat split.
  change (current_step s) with 0. rewrite round2_zero; [reflexivity|].
  apply percent_at_zero.
Qed.

Lemma X2_start_then_status_witness :
  dict_wf (_sessions world_two)
  /\ exists snap,
       get_status "s2" (snd (start_session "s2" "j8" "m8" 40 3 world_two))
       = (Return (Some snap),
          snd (start_session "s2" "j8" "m8" 40 3 world_two))
       /\ StatusDict.status snap = "pending"%string
       /\ StatusDict.job_id snap = "j8"%string
       /\ StatusDict.event_count snap = 0%nat.
Proof.
  split; [apply reachable_wf|].
  destruct (X2_start_then_status world_two "s2" "j8" "m8" 40 3
              (reachable_wf clock_1h _))
    as (snap & Hrun & _ & Hj & _ & Hst & _ & _ & _ & _ & _ & _ & _ & _ & _
        & _ & _ & Hn).
  exists snap. split; [exact Hrun|]. split; [exact Hst|].
  split; [exact Hj|exact Hn].
Defined.



(** X4: [fail] then [complete] on the same session.  Both calls return
    true.  Afterwards [get_status] either raises [OverflowError] or
    answers a snapshot that says "completed", still carries the error
    message stored by [fail], and whose completion time is the clock
    reading of the second call: [complete] neither clears the message
    nor keeps the first completion time; events and start time are as
    they were.  The two calls do not touch what the ETA and the
    percentage are computed from: if [get_status] answered a snapshot
    before them, it answers one after them. *)
Theorem X4_fail_then_complete (w : World) (sid err : string)
    (s : TrainingSession) :
  dict_get sid (_sessions w) = Some s ->
  let w1 := snd (fail_session sid err w) in
  let w2 := snd (complete_session sid w1) in
  fst (fail_session sid err w) = Return true
  /\ fst (complete_session sid w1) = Return true
  /\ (get_status sid w2 = (Raise OverflowError, w2)
      \/ exists snap,
           get_status sid w2 = (Return (Some snap), w2)
           /\ StatusDict.status snap = "completed"%string
           /\ StatusDict.error_message snap = Some err
           /\ StatusDict.completed_at snap
              = Some (ticks (clock w) (S (reads (clock w))))
           /\ StatusDict.started_at snap = started_at s
           /\ StatusDict.event_count snap = List.length (events s))
  /\ (forall snap0,
        get_status sid w = (Return (Some snap0), w) ->
        exists snap, get_status sid w2 = (Return (Some snap), w2)).
Proof.
  intros Hg w1 w2. subst w2 w1.
  rewrite (fail_session_run sid err w s Hg). cbn [fst snd].
  set (s1 := failed s err _). set (w1 := mkWorld _ _).
  assert (Hg1 : dict_get sid (_sessions w1) = Some s1)
    by apply dict_get_set_same.
  rewrite (complete_session_run sid w1 s1 Hg1). cbn [fst snd].
  set (s2 := completed s1 _). set (w2 := mkWorld _ _).
  assert (Hg2 : dict_get sid (_sessions w2) = Some s2)
    by apply dict_get_set_same.
  split; [reflexivity|]. split; [reflexivity|]. split.
  - destruct (to_dict_outcome s2) as [(eta & _ & Hto)|Hto];
      [right|left; now apply (get_status_raises sid w2 s2)].
    eexists. split; [exact (get_status_returns sid w2 s2 _ Hg2 Hto)|].
    cbn [snapshot StatusDict.status StatusDict.error_message
         StatusDict.completed_at StatusDict.started_at StatusDict.event_count].
    unfold s2, s1, w1, completed, failed, advance. cbn.
    rewrite Nat.add_1_r. repeat split.
  - intros snap0 Hrun0. rewrite (get_status_run sid w s Hg) in Hrun0.
    destruct (to_dict s) as [snap|e] eqn:Hto; [|discriminate].
    destruct (to_dict_ext s s2 snap eq_refl eq_refl Hto) as (eta & _ & Hto2).
    eexists. exact (get_status_returns sid w2 s2 _ Hg2 Hto2).
Qed.

Lemma X4_fail_then_complete_witness :
  (dict_get "s1" (_sessions world_started) = Some session_started
   /\ exists snap0,
        get_status "s1" world_started = (Return (Some snap0), world_started))
  /\ exists snap,
       get_status "s1"
         (snd (complete_session "s1"
                 (snd (fail_session "s1" "OOM error" world_started))))
       = (Return (Some snap),
          snd (complete_session "s1"
                 (snd (fail_session "s1" "OOM error" world_started))))
       /\ StatusDict.status snap = "completed"%string
       /\ StatusDict.error_message snap = Some "OOM error"%string.
Proof.
  assert (H0 : exists snap0,
             get_status "s1" world_started
             = (Return (Some snap0), world_started)).
  { rewrite (get_status_run "s1" world_started session_started eq_refl).
    destruct (to_dict session_started) as [snap0|e] eqn:Hsnap;
      [|vm_compute in Hsnap; discriminate].
    exists snap0. reflexivity. }
  split; [split; [reflexivity|exact H0]|].
  destruct (X4_fail_then_complete world_started "s1" "OOM error"
              session_started eq_refl)
    as (_ & _ & [Hraise|(snap & Hrun & Hst & Hmsg & _)] & Hkeep).
  - exfalso. destruct H0 as (snap0 & Hrun0).
    destruct (Hkeep snap0 Hrun0) as (snap & Hrun).
    rewrite Hraise in Hrun. discriminate.
  - exists snap. split; [exact Hrun|]. split; [exact Hst|exact Hmsg].
Defined.

(** ** Sweeps: what is counted, what survives, what is listed *)

Lemma swept_count t n d :
  (List.length (swept_ids t n d) + List.length (swept t n d)
   = List.length d)%nat.
Proof.
  revert n. induction d as [|[k s] r IH]; intros n; simpl; [reflexivity|].
  specialize (IH (S n)). destruct (expired_at (t n) s); simpl; lia.
Qed.

Lemma active_count_run w :
  dict_wf (_sessions w) ->
  active_count w
  = (Return (List.length
               (swept (ticks (clock w)) (reads (clock w)) (_sessions w))),
     mkWorld (swept (ticks (clock w)) (reads (clock w)) (_sessions w))
             (advance (List.length (_sessions w)) (clock w))).
Proof.
  intros Hwf. unfold active_count, bind.
  now rewrite (_cleanup_expired_run w Hwf).
Qed.

Lemma to_dict_all_ids l snaps :
  to_dict_all l = Return snaps ->
  map StatusDict.session_id snaps = map session_id l.
Proof.
  revert snaps. induction l as [|s r IH]; intros snaps; simpl.
  - now intros [= <-].
  - destruct (to_dict s) as [x|e] eqn:Hto; [|discriminate]. cbn [obind].
    destruct (to_dict_all r) as [xs|e]; simpl; [|discriminate].
    intros [= <-]. simpl.
    destruct (to_dict_returns s x Hto) as (eta & _ & ->).
    f_equal. now apply IH.
Qed.

Lemma to_dict_all_raises l e :
  to_dict_all l = Raise e -> exists s, In s l /\ to_dict s = Raise e.
Proof.
  induction l as [|s r IH]; simpl; [discriminate|].
  destruct (to_dict s) as [x|e'] eqn:Hto; cbn [obind].
  - destruct (to_dict_all r) as [xs|e'']; simpl; [discriminate|].
    intros [= ->]. destruct (IH eq_refl) as (s' & Hin & Hs').
    exists s'. split; [now right|exact Hs'].
  - intros [= ->]. exists s. split; [now left|exact Hto].
Qed.

Lemma ids_match_values d :
  ids_match d -> map session_id (dict_values d) = dict_keys d.
Proof.
  unfold ids_match, dict_values, dict_keys.
  induction 1 as [|[k s] r Hhd _ IH]; simpl; [reflexivity|].
  simpl in Hhd. now rewrite Hhd, IH.
Qed.

(** X5: [_cleanup_expired] returns the number of sessions it removed:
    on any tracker state it returns some [k] without raising, and the
    dictionary it leaves has exactly [k] entries fewer than before.  It
    reads the clock once per session it found. *)
Theorem X5_cleanup_returns_count_removed (w : World) :
  dict_wf (_sessions w) ->
  exists k w',
    _cleanup_expired w = (Return k, w')
    /\ (k + List.length (_sessions w') = List.length (_sessions w))%nat
    /\ clock w' = advance (List.length (_sessions w)) (clock w).
Proof.
  intros Hwf. do 2 eexists. split; [now apply _cleanup_expired_run|].
  split; [apply swept_count|reflexivity].
Qed.

Lemma X5_cleanup_returns_count_removed_witness :
  dict_wf (_sessions world_two)
  /\ exists w',
       _cleanup_expired world_two = (Return 1%nat, w')
       /\ List.length (_sessions w') = 1%nat.
Proof.
  split; [apply reachable_wf|].
  destruct (X5_cleanup_returns_count_removed world_two
              (reachable_wf clock_1h _)) as (k & w' & Hrun & Hk & _).
  assert (Hk1 : k = 1%nat).
  { assert (H : fst (_cleanup_expired world_two) = Return 1%nat)
      by (vm_compute; reflexivity).
    rewrite Hrun in H. now injection H. }
  subst k. exists w'. split; [exact Hrun|].
  change (List.length (_sessions world_two)) with 2%nat in Hk. lia.
Defined.

(** X6: a session that is within its TTL at every clock reading of a
    sweep survives it untouched: after [list_sessions], and after a
    [start_session] for another id, the id is still bound to the very
    same session, and [get_status] still answers for it: it ends as it
    did before the sweep (same snapshot, or same exception), and not
    with the answer of an unknown id. *)
Theorem X6_live_session_survives_sweep (w : World) (sid : string)
    (s : TrainingSession) :
  dict_wf (_sessions w) ->
  dict_get sid (_sessions w) = Some s ->
  (forall k,
     (reads (clock w) <= k < reads (clock w) + List.length (_sessions w))%nat ->
     ticks (clock w) k <= _last_activity s + 2 * 3600 * 1000000) ->
  dict_get sid (_sessions (snd (list_sessions w))) = Some s
  /\ (forall sid' jid mid ts te,
        sid' <> sid ->
        dict_get sid
          (_sessions (snd (start_session sid' jid mid ts te w))) = Some s)
  /\ fst (get_status sid (snd (list_sessions w))) = fst (get_status sid w)
  /\ fst (get_status sid w) <> Return None.
Proof.
  intros Hwf Hg Hlive.
  assert (Hkept : dict_get sid
                    (swept (ticks (clock w)) (reads (clock w)) (_sessions w))
                  = Some s).
  { destruct (dict_get_nth sid (_sessions w) s Hg) as [i Hi].
    rewrite (swept_get _ _ _ i sid s Hwf Hi).
    unfold expired_at, timedelta_hours, default_ttl_hours, usec_per_sec.
    assert (Hi' : (i < List.length (_sessions w))%nat)
      by (apply nth_error_Some; congruence).
    specialize (Hlive (reads (clock w) + i)%nat ltac:(lia)).
    destruct (Z.ltb_spec (_last_activity s + 2 * 3600 * 1000000)
                (ticks (clock w) (reads (clock w) + i)%nat));
      [lia|reflexivity]. }
  rewrite (list_sessions_run w Hwf). cbn [snd _sessions].
  split; [exact Hkept|]. split; [|split].
  - intros sid' jid mid ts te Hne.
    rewrite (start_session_run sid' jid mid ts te w Hwf). cbn [snd _sessions].
    rewrite dict_get_set_other by congruence. exact Hkept.
  - rewrite (get_status_run sid (mkWorld
               (swept (ticks (clock w)) (reads (clock w)) (_sessions w))
               (advance (List.length (_sessions w)) (clock w))) s Hkept).
    now rewrite (get_status_run sid w s Hg).
  - rewrite (get_status_run sid w s Hg). cbn [fst].
    now destruct (to_dict s).
Qed.

Lemma world_started_clock :
  clock world_started
  = mkClock (fun k => Z.of_nat k * usec_per_sec) 2.
Proof. reflexivity. Qed.

Lemma X6_live_session_survives_sweep_witness :
  (dict_wf (_sessions world_started)
   /\ dict_get "s1" (_sessions world_started) = Some session_started
   /\ forall k,
        (reads (clock world_started) <= k
         < reads (clock world_started)
           + List.length (_sessions world_started))%nat ->
        ticks (clock world_started) k
        <= _last_activity session_started + 2 * 3600 * 1000000)
  /\ dict_get "s1" (_sessions (snd (list_sessions world_started)))
     = Some session_started.
Proof.
  assert (Hwf : dict_wf (_sessions world_started))
    by apply (reachable_wf clock_1s [StartSession "s1" "j1" "m1" 100 1]).
  assert (Hlive : forall k,
            (reads (clock world_started) <= k
             < reads (clock world_started)
               + List.length (_sessions world_started))%nat ->
            ticks (clock world_started) k
            <= _last_activity session_started + 2 * 3600 * 1000000).
  { rewrite world_started_clock. simpl ticks. simpl reads.
    change (List.length (_sessions world_started)) with 1%nat.
    change (_last_activity session_started) with 1000000.
    unfold usec_per_sec. intros k Hk. lia. }
  split; [split; [exact Hwf|split; [reflexivity|exact Hlive]]|].
  exact (proj1 (X6_live_session_survives_sweep world_started "s1"
                  session_started Hwf eq_refl Hlive)).
Defined.

(** X7: [list_sessions] and [active_count] agree.  From the same state
    both run the same sweep and leave the same state.  [active_count]
    never raises and returns the number of sessions that survive.
    [list_sessions] either returns one snapshot per surviving session,
    in the order of the dictionary, or raises [OverflowError] because
    the snapshot of one of the surviving sessions cannot be computed;
    the sweep has been done in both cases.  In a state reached from the
    creation of the tracker the snapshots' ["session_id"]s are exactly
    the surviving keys, in order, hence pairwise distinct. *)
Theorem X7_list_and_count_agree (c : Clock) (ops : list Op) :
  let w := after_all ops (TrainingTracker_new c) in
  let w' := snd (list_sessions w) in
  active_count w = (Return (List.length (_sessions w')), w')
  /\ NoDup (dict_keys (_sessions w'))
  /\ ((exists snaps,
         list_sessions w = (Return snaps, w')
         /\ List.length snaps = List.length (_sessions w')
         /\ map StatusDict.session_id snaps = dict_keys (_sessions w'))
      \/ (list_sessions w = (Raise OverflowError, w')
          /\ exists s, In s (dict_values (_sessions w'))
                       /\ to_dict s = Raise OverflowError)).
Proof.
  intros w w'.
  pose proof (reachable_wf c ops) as Hwf. fold w in Hwf.
  pose proof (reachable_ids_match c ops) as Hids. fold w in Hids.
  pose proof (list_sessions_run w Hwf) as Hrun. cbv zeta in Hrun.
  assert (Hw' : w' = mkWorld (swept (ticks (clock w)) (reads (clock w))
                                (_sessions w))
                             (advance (List.length (_sessions w)) (clock w)))
    by (unfold w'; now rewrite Hrun).
  split; [rewrite (active_count_run w Hwf); now rewrite Hw'|].
  split; [rewrite Hw'; now apply swept_wf|].
  rewrite <- Hw' in Hrun.
  assert (Hsw : _sessions w'
                = swept (ticks (clock w)) (reads (clock w)) (_sessions w))
    by now rewrite Hw'.
  rewrite <- Hsw in Hrun.
  destruct (to_dict_all_outcome (dict_values (_sessions w')))
    as [[snaps Hsnaps]|Hraise].
  - left. exists snaps. rewrite Hsnaps in Hrun. split; [exact Hrun|].
    assert (Hmap : map StatusDict.session_id snaps
                   = dict_keys (_sessions w')).
    { rewrite (to_dict_all_ids _ _ Hsnaps).
      apply ids_match_values. rewrite Hsw. now apply ids_match_swept. }
    split; [|exact Hmap].
    rewrite <- (length_map StatusDict.session_id), Hmap.
    unfold dict_keys. now rewrite length_map.
  - right. rewrite Hraise in Hrun. split; [exact Hrun|].
    now apply to_dict_all_raises.
Qed.

(** ** The ETA and the progress figure *)

Lemma window_of_long_history s pre win :
  events s = pre ++ win ->
  (20 <= List.length win)%nat ->
  window s = skipn (List.length win - 20) win.
Proof.
  intros Hev Hlen. unfold window, slice_last. rewrite Hev.
  rewrite length_app, Nat.min_l by lia.
  rewrite skipn_app, skipn_all2 by lia. simpl.
  f_equal. lia.
Qed.

Lemma current_step_of_suffix s pre win :
  events s = pre ++ win -> win <> [] ->
  current_step s = last (map step win) 0.
Proof.
  intros Hev Hne. rewrite current_step_last, Hev, map_app.
  rewrite last_app_default. apply last_nonempty_indep.
  destruct win; [congruence|discriminate].
Qed.

(** X8: the ETA looks at the last twenty events only.  Two sessions with
    the same [total_steps] whose event lists end with the same twenty or
    more events get the same answer from [estimate_eta], whatever
    happened before those events. *)
Theorem X8_eta_depends_on_last_twenty (s1 s2 : TrainingSession)
    (pre1 pre2 win : list TrainingEvent) :
  total_steps s1 = total_steps s2 ->
  events s1 = pre1 ++ win ->
  events s2 = pre2 ++ win ->
  (20 <= List.length win)%nat ->
  estimate_eta s1 = estimate_eta s2.
Proof.
  intros Htot H1 H2 Hlen.
  assert (Hne : win <> []) by (destruct win; [simpl in Hlen; lia|discriminate]).
  pose proof (window_of_long_history s1 pre1 win H1 Hlen) as Hw1.
  pose proof (window_of_long_history s2 pre2 win H2 Hlen) as Hw2.
  pose proof (current_step_of_suffix s1 pre1 win H1 Hne) as Hc1.
  pose proof (current_step_of_suffix s2 pre2 win H2 Hne) as Hc2.
  unfold estimate_eta. fold (window s1) (window s2).
  rewrite Hw1, Hw2, Hc1, Hc2, Htot, H1, H2, !length_app.
  destruct (Nat.ltb_spec (List.length pre1 + List.length win) 2); [lia|].
  destruct (Nat.ltb_spec (List.length pre2 + List.length win) 2); [lia|].
  reflexivity.
Qed.

Lemma X8_eta_depends_on_last_twenty_witness :
  (total_steps session_long_history = total_steps session_short_history
   /\ (20 <= List.length last_twenty)%nat)
  /\ estimate_eta session_long_history = estimate_eta session_short_history.
Proof.
  assert (Hlen : (20 <= List.length last_twenty)%nat)
    by (vm_compute; repeat constructor).
  split; [split; [reflexivity|exact Hlen]|].
  exact (X8_eta_depends_on_last_twenty session_long_history
           session_short_history _ [] last_twenty
           eq_refl eq_refl eq_refl Hlen).
Defined.

Lemma round_half_even_bounds (q : Q) :
  Qfloor q <= round_half_even q <= Qfloor q + 1.
Proof.
  unfold round_half_even.
  destruct (Qcompare _ _); [destruct (Z.even _)| |]; lia.
Qed.

Lemma round_half_even_nonneg (q : Q) : (0 <= q)%Q -> 0 <= round_half_even q.
Proof.
  intros H. pose proof (round_half_even_bounds q) as [Hlo _].
  apply Qfloor_resp_le in H. change (Qfloor 0) with 0 in H. lia.
Qed.

Lemma frac_below_half_at_ceiling (q : Q) (n : Z) :
  (q <= inject_Z n)%Q -> Qfloor q = n ->
  Qcompare (q - inject_Z n) (1 # 2) = Lt.
Proof.
  intros Hle _. apply (proj1 (Qlt_alt _ _)).
  destruct q as [a b]. unfold Qle, Qlt, Qminus, Qplus, Qopp, inject_Z in *.
  cbn [Qnum Qden] in *. lia.
Qed.

Lemma round_half_even_le (q : Q) (n : Z) :
  (q <= inject_Z n)%Q -> round_half_even q <= n.
Proof.
  intros Hle.
  assert (Hf : Qfloor q <= n).
  { apply Qfloor_resp_le in Hle. now rewrite Qfloor_Z in Hle. }
  destruct (Z.eq_dec (Qfloor q) n) as [Heq|Hne].
  - unfold round_half_even. rewrite Heq.
    rewrite (frac_below_half_at_ceiling q n Hle Heq). lia.
  - pose proof (round_half_even_bounds q). lia.
Qed.

(** X9: while the run has not passed its total the ETA is not negative.
    If [estimate_eta] answers a duration, [current_step] does not exceed
    [total_steps], and the window's last timestamp is not before its
    first, then the duration is at least zero; it is exactly zero when
    [current_step] equals [total_steps]. *)
Theorem X9_eta_nonnegative_before_total (s : TrainingSession)
    (e0 : TrainingEvent) (r : list TrainingEvent) (td : timedelta) :
  estimate_eta s = Return (Some td) ->
  window s = e0 :: r ->
  timestamp e0 <= timestamp (last r e0) ->
  current_step s <= total_steps s ->
  0 <= td /\ (current_step s = total_steps s -> td = 0).
Proof.
  intros Heta Hwin Hts Hcur.
  assert (Hlen : (2 <= List.length (events s))%nat).
  { destruct (Nat.ltb_spec (List.length (events s)) 2) as [Hlt|]; [|lia].
    rewrite (estimate_eta_few_events s Hlt) in Heta. discriminate. }
  destruct (estimate_eta_value s e0 r td Hlen Hwin Heta) as [Hpos ->].
  split.
  - apply round_half_even_nonneg.
    apply Qmult_le_0_compat; [|discriminate].
    apply Qmult_le_0_compat.
    + change 0%Q with (inject_Z 0). rewrite <- Zle_Qle. lia.
    + unfold Qdiv. apply Qmult_le_0_compat.
      * unfold total_seconds, Qle. simpl. lia.
      * apply Qinv_le_0_compat. change 0%Q with (inject_Z 0).
        rewrite <- Zle_Qle. lia.
  - intros Heq. rewrite Heq, Z.sub_diag.
    rewrite (round_half_even_comp _ 0); [reflexivity|].
    now rewrite !Qmult_0_l.
Qed.

Lemma X9_eta_nonnegative_before_total_witness :
  (estimate_eta session_short_history = Return (Some (80 * usec_per_sec))
   /\ window session_short_history
      = hd (mkEvent 0 0 0 0 0 None None None) last_twenty :: tl last_twenty
   /\ timestamp (hd (mkEvent 0 0 0 0 0 None None None) last_twenty)
      <= timestamp (last (tl last_twenty)
                      (hd (mkEvent 0 0 0 0 0 None None None) last_twenty))
   /\ current_step session_short_history
      <= total_steps session_short_history)
  /\ 0 <= 80 * usec_per_sec.
Proof.
  assert (Heta : estimate_eta session_short_history
                 = Return (Some (80 * usec_per_sec)))
    by (vm_compute; reflexivity).
  assert (Hts : timestamp (hd (mkEvent 0 0 0 0 0 None None None) last_twenty)
                <= timestamp
                     (last (tl last_twenty)
                        (hd (mkEvent 0 0 0 0 0 None None None) last_twenty)))
    by (vm_compute; discriminate).
  assert (Hcur : current_step session_short_history
                 <= total_steps session_short_history)
    by (vm_compute; discriminate).
  split; [split; [exact Heta|split; [reflexivity|split; assumption]]|].
  exact (proj1 (X9_eta_nonnegative_before_total session_short_history
                  (hd (mkEvent 0 0 0 0 0 None None None) last_twenty)
                  (tl last_twenty) (80 * usec_per_sec)
                  Heta eq_refl Hts Hcur)).
Defined.

(** X10: the progress figure of a snapshot never exceeds 100, whatever
    the session holds (also past its total, and after the rounding to two
    decimals); with a positive [total_steps] and a non-negative current
    step it is not negative either. *)
Theorem X10_snapshot_progress_bounds (s : TrainingSession)
    (snap : StatusDict.t) :
  to_dict s = Return snap ->
  (StatusDict.progress_percent snap <= 100)%Q
  /\ (0 <= total_steps s -> 0 <= current_step s ->
      (0 <= StatusDict.progress_percent snap)%Q).
Proof.
  intros Hto. destruct (to_dict_returns s snap Hto) as (eta & _ & ->).
  cbn [snapshot StatusDict.progress_percent]. unfold round2. split.
  - assert (H : round_half_even
                  (percent (total_steps s) (current_step s) * 100)
                <= 10000).
    { apply round_half_even_le. change (inject_Z 10000) with (100 * 100)%Q.
      apply Qmult_le_compat_r; [apply percent_le_100|discriminate]. }
    unfold Qle. simpl. lia.
  - intros Htot Hcur.
    assert (H : 0 <= round_half_even
                       (percent (total_steps s) (current_step s) * 100)).
    { apply round_half_even_nonneg.
      apply Qmult_le_0_compat; [|discriminate].
      apply Qle_trans with (percent (total_steps s) 0).
      - now rewrite percent_at_zero.
      - now apply percent_mono. }
    unfold Qle. simpl. lia.
Qed.

Lemma X10_snapshot_progress_bounds_witness :
  exists snap,
    to_dict session_overshoot = Return snap
    /\ (StatusDict.progress_percent snap <= 100)%Q.
Proof.
  destruct (to_dict session_overshoot) as [snap|e] eqn:Hsnap;
    [|vm_compute in Hsnap; discriminate].
  exists snap. split; [reflexivity|].
  exact (proj1 (X10_snapshot_progress_bounds session_overshoot snap Hsnap)).
Defined.

(** ** The human-readable ETA *)

Lemma pow2_pos z : (0 < pow2 z)%Q.
Proof.
  destruct z as [|p|p]; unfold pow2; [reflexivity| |reflexivity].
  assert (H : 0 < 2 ^ Zpos p) by (apply Z.pow_pos_nonneg; lia).
  unfold Qlt, inject_Z. cbn [Qnum Qden]. lia.
Qed.

(** Below [2 ** 33] seconds the spacing of floats is at most
    [2 ** -20], finer than a microsecond. *)
Lemma ulp_of_seconds (m : Z) :
  0 < m < 2 ^ 33 * 1000000 ->
  exists P : positive,
    1000000 < Zpos P
    /\ pow2 (binade (m # 1000000) - 52) = (1 # P)%Q.
Proof.
  intros [Hpos Hlt].
  assert (Hb : binade (m # 1000000) <= 32).
  { unfold binade. cbn [Qnum Qden].
    change (Z.log2 (Zpos 1000000)) with 19.
    assert (Hlog : Z.log2 m < 53)
      by (apply Z.log2_lt_pow2; [exact Hpos|]; lia).
    destruct (Z.eq_dec (Z.log2 m - 19) 33) as [He|He].
    - rewrite He.
      destruct (Qle_bool (pow2 33) (m # 1000000)) eqn:Hle; [|lia].
      apply Qle_bool_iff in Hle. unfold Qle in Hle. simpl in Hle. lia.
    - destruct (Qle_bool _ _); lia. }
  destruct (binade (m # 1000000) - 52) as [|p|p] eqn:Hj; try lia.
  exists (2 ^ p)%positive. split; [|reflexivity].
  rewrite Pos2Z.inj_pow.
  apply Z.lt_le_trans with (2 ^ 20); [reflexivity|].
  apply Z.pow_le_mono_r; lia.
Qed.

(** For a duration below [2 ** 33] seconds in magnitude the float
    [total_seconds()] truncates to the whole seconds of the duration. *)
Lemma int_of_total_seconds (eta : timedelta) :
  Z.abs eta < 2 ^ 33 * 1000000 ->
  int_of_float (binary64 (total_seconds eta)) = Z.quot eta 1000000.
Proof.
  intros Hb. unfold total_seconds.
  destruct eta as [|m|m].
  - reflexivity.
  - destruct (ulp_of_seconds (Zpos m)) as (P & HP & Hulp); [lia|].
    unfold binary64. cbn [Qnum Qabs Z.abs]. rewrite Hulp.
    set (r := round_half_even ((Zpos m # 1000000) / (1 # P))).
    pose proof (round_half_even_bounds ((Zpos m # 1000000) / (1 # P)))
      as Hr. fold r in Hr.
    unfold Qfloor, Qdiv, Qmult, Qinv in Hr. cbn [Qnum Qden] in Hr.
    rewrite Z.quot_div_nonneg by lia.
    pose proof (Z.div_mod (Zpos m) 1000000 ltac:(lia)) as Hdm.
    pose proof (Z.mod_pos_bound (Zpos m) 1000000 ltac:(lia)) as Hmb.
    set (k := Zpos m / 1000000) in *.
    assert (Hlo : k * Zpos P <= Zpos m * Zpos P / Zpos (1000000 * 1))
      by (apply Z.div_le_lower_bound; [lia|]; nia).
    assert (Hhi : Zpos m * Zpos P / Zpos (1000000 * 1) < (k + 1) * Zpos P - 1)
      by (apply Z.div_lt_upper_bound; [lia|]; nia).
    unfold int_of_float.
    assert (H0 : Qle_bool 0 (inject_Z r * (1 # P)) = true).
    { assert (Hk : 0 <= k) by (apply Z.div_pos; lia).
      assert (Hr0 : 0 <= r) by nia.
      apply Qle_bool_iff. unfold Qle, Qmult, inject_Z. cbn [Qnum Qden]. lia. }
    rewrite H0. unfold Qfloor, Qmult, inject_Z. cbn [Qnum Qden].
    rewrite Z.mul_1_r. change (Zpos (1 * P)) with (Zpos P).
    symmetry. apply Z.div_unique with (r - k * Zpos P); lia.
  - destruct (ulp_of_seconds (Zpos m)) as (P & HP & Hulp); [lia|].
    unfold binary64. cbn [Qnum Qabs Z.abs]. rewrite Hulp.
    set (y := ((Zneg m # 1000000) / (1 # P))%Q).
    set (r := round_half_even y).
    pose proof (Z.div_mod (Zpos m) 1000000 ltac:(lia)) as Hdm.
    pose proof (Z.mod_pos_bound (Zpos m) 1000000 ltac:(lia)) as Hmb.
    change (Zneg m) with (- Zpos m).
    rewrite Z.quot_opp_l, Z.quot_div_nonneg by lia.
    set (k := Zpos m / 1000000) in *.
    assert (Hk : 0 <= k) by (apply Z.div_pos; lia).
    assert (Hhi : r <= - (k * Zpos P)).
    { apply round_half_even_le. unfold y, Qle, Qdiv, Qmult, Qinv, inject_Z.
      cbn [Qnum Qden]. nia. }
    assert (Hlo : - ((k + 1) * Zpos P) + 1 <= r).
    { pose proof (round_half_even_bounds y) as [Hf _]. fold r in Hf.
      apply Z.le_trans with (Qfloor y); [|exact Hf].
      unfold y, Qfloor, Qdiv, Qmult, Qinv. cbn [Qnum Qden].
      apply Z.div_le_lower_bound; [lia|]. nia. }
    unfold int_of_float.
    destruct (Qle_bool 0 (inject_Z r * (1 # P))) eqn:H0.
    + apply Qle_bool_iff in H0. unfold Qle, Qmult, inject_Z in H0.
      cbn [Qnum Qden] in H0.
      assert (Hr0 : r = 0) by nia. assert (Hk0 : k = 0) by nia.
      rewrite Hr0, Hk0. reflexivity.
    + unfold Qceiling, Qfloor, Qopp, Qmult, inject_Z. cbn [Qnum Qden].
      rewrite Z.mul_1_r. change (Zpos (1 * P)) with (Zpos P).
      f_equal. symmetry. apply Z.div_unique with (- r - k * Zpos P); lia.
Qed.

(** A duration that is not positive never truncates to a positive
    number of seconds. *)
Lemma int_of_total_seconds_nonpos (eta : timedelta) :
  eta <= 0 -> int_of_float (binary64 (total_seconds eta)) <= 0.
Proof.
  intros Hle. unfold total_seconds.
  destruct eta as [|m|m]; [discriminate|lia|].
  unfold binary64. cbn [Qnum].
  set (ulp := pow2 _). pose proof (pow2_pos (binade (Qabs (Zneg m # 1000000)) - 52)) as Hulp.
  fold ulp in Hulp.
  set (r := round_half_even ((Zneg m # 1000000) / ulp)).
  assert (Hr : r <= 0).
  { apply round_half_even_le. unfold Qdiv.
    setoid_replace (inject_Z 0) with (0 * / ulp)%Q by ring.
    apply Qmult_le_compat_r; [discriminate|].
    apply Qinv_le_0_compat. now apply Qlt_le_weak. }
  assert (Hx : (inject_Z r * ulp <= 0)%Q).
  { setoid_replace 0%Q with (0 * ulp)%Q by ring.
    apply Qmult_le_compat_r; [|now apply Qlt_le_weak].
    change 0%Q with (inject_Z 0). now rewrite <- Zle_Qle. }
  unfold int_of_float.
  destruct (Qle_bool 0 (inject_Z r * ulp)) eqn:H0.
  - apply Qle_bool_iff in H0.
    apply Qfloor_resp_le in Hx. exact Hx.
  - apply Qceiling_resp_le in Hx. exact Hx.
Qed.

(** X11: what [_format_eta] prints.  The whole seconds it works with
    are [int(eta.total_seconds())], taken through a float.  For a
    duration below [2 ** 33] seconds in magnitude (some 272 years) they
    are the duration cut to whole seconds towards zero; beyond, the float
    may round up: the greatest [timedelta] counts one second more than it
    holds.  A zero or negative duration, however long, never gives a
    positive count.  Below one minute (in particular for every zero or
    negative duration) it prints the seconds alone; below one hour it
    prints minutes and seconds that add up to the count exactly; from
    one hour on it prints hours and minutes, the remaining seconds being
    dropped, not rounded. *)
Theorem X11_format_eta_parts (eta : timedelta) :
  let secs := int_of_float (binary64 (total_seconds eta)) in
  (Z.abs eta < 2 ^ 33 * 1000000 -> secs = Z.quot eta 1000000)
  /\ (eta <= 0 -> secs <= 0)
  /\ (secs < 60 -> _format_eta eta = (str_int secs ++ "s")%string)
  /\ (60 <= secs < 3600 ->
      exists m s,
        _format_eta eta
        = (str_int m ++ "m " ++ str_int s ++ "s")%string
        /\ secs = 60 * m + s /\ 1 <= m < 60 /\ 0 <= s < 60)
  /\ (3600 <= secs ->
      exists h m,
        _format_eta eta = (str_int h ++ "h " ++ str_int m ++ "m")%string
        /\ 1 <= h /\ 0 <= m < 60
        /\ 3600 * h + 60 * m <= secs < 3600 * h + 60 * m + 60)
  /\ int_of_float (binary64 (total_seconds timedelta_max))
     = Z.quot timedelta_max 1000000 + 1
  /\ _format_eta timedelta_max = "24000000000h 0m"%string.
Proof.
  intros secs.
  split; [apply int_of_total_seconds|].
  split; [apply int_of_total_seconds_nonpos|].
  unfold _format_eta. fold secs.
  split; [|split; [|split; [|split]]].
  - intros H. destruct (Z.ltb_spec secs 60); [reflexivity|lia].
  - intros H. destruct (Z.ltb_spec secs 60); [lia|].
    destruct (Z.ltb_spec secs 3600); [|lia].
    exists (secs / 60), (secs mod 60). split; [reflexivity|].
    pose proof (Z.div_mod secs 60 ltac:(lia)).
    pose proof (Z.mod_pos_bound secs 60 ltac:(lia)). lia.
  - intros H. destruct (Z.ltb_spec secs 60); [lia|].
    destruct (Z.ltb_spec secs 3600); [lia|].
    exists (secs / 3600), ((secs mod 3600) / 60). split; [reflexivity|].
    pose proof (Z.div_mod secs 3600 ltac:(lia)).
    pose proof (Z.mod_pos_bound secs 3600 ltac:(lia)).
    pose proof (Z.div_mod (secs mod 3600) 60 ltac:(lia)).
    pose proof (Z.mod_pos_bound (secs mod 3600) 60 ltac:(lia)). lia.
  - vm_compute. reflexivity.
  - vm_compute. reflexivity.
Qed.

Lemma X11_format_eta_parts_witness :
  (Z.abs 125900000 < 2 ^ 33 * 1000000
   /\ -7200500000 <= 0
   /\ int_of_float (binary64 (total_seconds (-7200500000))) < 60
   /\ 60 <= int_of_float (binary64 (total_seconds 125900000)) < 3600
   /\ 3600 <= int_of_float (binary64 (total_seconds 3779000000)))
  /\ int_of_float (binary64 (total_seconds 125900000)) = 125
  /\ int_of_float (binary64 (total_seconds (-7200500000))) <= 0
  /\ _format_eta (-7200500000) = "-7200s"%string
  /\ (exists m s,
        _format_eta 125900000
        = (str_int m ++ "m " ++ str_int s ++ "s")%string
        /\ int_of_float (binary64 (total_seconds 125900000)) = 60 * m + s)
  /\ (exists h m,
        _format_eta 3779000000
        = (str_int h ++ "h " ++ str_int m ++ "m")%string
        /\ 1 <= h).
Proof.
  assert (H0 : Z.abs 125900000 < 2 ^ 33 * 1000000) by reflexivity.
  assert (Hneg : -7200500000 <= 0) by discriminate.
  assert (H1 : int_of_float (binary64 (total_seconds (-7200500000))) < 60)
    by (vm_compute; reflexivity).
  assert (H2 : 60 <= int_of_float (binary64 (total_seconds 125900000))
               < 3600)
    by (split; vm_compute; [discriminate|reflexivity]).
  assert (H3 : 3600 <= int_of_float (binary64 (total_seconds 3779000000)))
    by (vm_compute; discriminate).
  split; [split; [exact H0|split; [exact Hneg|split; [exact H1|
          split; [exact H2|exact H3]]]]|].
  destruct (X11_format_eta_parts 125900000) as (Hq & _ & _ & Hm & _).
  destruct (X11_format_eta_parts (-7200500000)) as (_ & Hle & Hs & _).
  destruct (X11_format_eta_parts 3779000000) as (_ & _ & _ & _ & Hh & _).
  split; [exact (Hq H0)|]. split; [exact (Hle Hneg)|].
  split; [rewrite (Hs H1); vm_compute; reflexivity|]. split.
  - destruct (Hm H2) as (m & s & Hfmt & Hsum & _).
    exists m, s. split; assumption.
  - destruct (Hh H3) as (h & m & Hfmt & Hh1 & _).
    exists h, m. split; assumption.
Defined.

(** ** The HTTP handlers *)



(** X13: [complete_training].  For an unknown session id the handler
    raises the 404 "Training session not found" whatever the request
    says, and leaves the tracker untouched.  For a known one it never
    raises: a request whose [error] is a non-empty string marks the
    session Failed and stores that string; a request without [error],
    or with the empty string as [error], marks it Completed and stores no
    message. *)
Theorem X13_complete_training (request : TrainingCompleteRequest.t)
    (w : World) :
  let sid := TrainingCompleteRequest.session_id request in
  (dict_get sid (_sessions w) = None ->
   complete_training request w = (Raise not_found, w))
  /\ (forall s,
        dict_get sid (_sessions w) = Some s ->
        exists reply w' s',
          complete_training request w = (Return reply, w')
          /\ CompleteReply.session_id reply = sid
          /\ dict_get sid (_sessions w') = Some s'
          /\ match TrainingCompleteRequest.error request with
             | None | Some EmptyString =>
                 status s' = COMPLETED
                 /\ error_message s' = error_message s
                 /\ CompleteReply.message reply
                    = "Training marked as completed"%string
             | Some err =>
                 status s' = FAILED
                 /\ error_message s' = Some err
                 /\ CompleteReply.message reply
                    = "Training marked as failed"%string
             end).
Proof.
  intros sid. unfold complete_training. fold sid. split.
  - intros Hg. unfold bind.
    destruct (TrainingCompleteRequest.error request) as [[|a err]|];
      cbn [String.eqb negb];
      rewrite ?(complete_session_missing sid w Hg),
              ?(fail_session_missing sid _ w Hg); reflexivity.
  - intros s Hg. unfold bind.
    destruct (TrainingCompleteRequest.error request) as [[|a err]|];
      cbn [String.eqb negb];
      rewrite ?(complete_session_run sid w s Hg),
              ?(fail_session_run sid _ w s Hg);
      cbn [fst snd negb]; do 3 eexists;
      (split; [reflexivity|]); (split; [reflexivity|]);
      (split; [apply dict_get_set_same|]); repeat split.
Qed.

Lemma X13_complete_training_witness :
  (dict_get "s9" (_sessions world_started) = None
   /\ dict_get "s1" (_sessions world_started) = Some session_started)
  /\ complete_training (TrainingCompleteRequest.mk "s9" (Some "boom"%string))
       world_started = (Raise not_found, world_started)
  /\ exists reply w' s',
       complete_training (TrainingCompleteRequest.mk "s1" (Some ""%string))
         world_started = (Return reply, w')
       /\ dict_get "s1" (_sessions w') = Some s'
       /\ status s' = COMPLETED.
Proof.
  split; [split; reflexivity|]. split.
  - exact (proj1 (X13_complete_training
                    (TrainingCompleteRequest.mk "s9" (Some "boom"%string))
                    world_started) eq_refl).
  - destruct (proj2 (X13_complete_training
                       (TrainingCompleteRequest.mk "s1" (Some ""%string))
                       world_started) session_started eq_refl)
      as (reply & w' & s' & Hrun & _ & Hg & Hst & _).
    exists reply, w', s'. split; [exact Hrun|]. split; assumption.
Defined.

Lemma get_session_run sid w :
  get_session sid w = (Return (dict_get sid (_sessions w)), w).
Proof. reflexivity. Qed.

Lemma get_events_missing sid since w :
  dict_get sid (_sessions w) = None ->
  get_events sid since w = (Return [], w).
Proof.
  intros Hg. unfold get_events, bind, read_sessions. simpl. now rewrite Hg.
Qed.

Lemma get_latest_missing sid w :
  dict_get sid (_sessions w) = None -> get_latest sid w = (Return None, w).
Proof.
  intros Hg. unfold get_latest, bind, read_sessions. simpl. now rewrite Hg.
Qed.

(** X14: [get_training_events] tells an unknown session from an empty
    answer.  It raises the 404 exactly when the session id is not
    registered; for a registered session it returns the events that
    qualify, in arrival order, and an empty list when none does (no
    events yet, or none past [since_step]).  The tracker is never
    changed. *)
Theorem X14_events_endpoint (sid : string) (since : option Z) (w : World) :
  (dict_get sid (_sessions w) = None ->
   get_training_events sid since w = (Raise not_found, w))
  /\ (forall s,
        dict_get sid (_sessions w) = Some s ->
        get_training_events sid since w
        = (Return
             (map event_to_dict
                match since with
                | Some k => filter (fun e => k <? step e) (events s)
                | None => events s
                end), w)).
Proof.
  unfold get_training_events, bind. split.
  - intros Hg. rewrite (get_events_missing sid since w Hg).
    rewrite get_session_run, Hg. reflexivity.
  - intros s Hg. rewrite (get_events_run sid since w s Hg).
    destruct (map event_to_dict _) as [|x xs]; [|reflexivity].
    rewrite get_session_run, Hg. reflexivity.
Qed.

Lemma X14_events_endpoint_witness :
  (dict_get "s9" (_sessions world_overshoot) = None
   /\ dict_get "s1" (_sessions world_overshoot) = Some session_overshoot)
  /\ get_training_events "s9" (Some 20) world_overshoot
     = (Raise not_found, world_overshoot)
  /\ get_training_events "s1" (Some 20) world_overshoot
     = (Return [], world_overshoot).
Proof.
  split; [split; reflexivity|]. split.
  - exact (proj1 (X14_events_endpoint "s9" (Some 20) world_overshoot)
             eq_refl).
  - exact (proj2 (X14_events_endpoint "s1" (Some 20) world_overshoot)
             session_overshoot eq_refl).
Defined.

(** X15: [get_latest_event] raises the 404 "No events found for session"
    both for an unknown session id and for a registered session that has
    no event yet; otherwise it returns the event that arrived last
    (whatever its step).  The tracker is never changed. *)
Theorem X15_latest_endpoint (sid : string) (w : World) :
  (dict_get sid (_sessions w) = None ->
   get_latest_event sid w
   = (Raise (HTTPException 404 "No events found for session"), w))
  /\ (forall s,
        dict_get sid (_sessions w) = Some s ->
        (events s = [] ->
         get_latest_event sid w
         = (Raise (HTTPException 404 "No events found for session"), w))
        /\ (forall pre e,
              events s = pre ++ [e] ->
              get_latest_event sid w = (Return (event_to_dict e), w))).
Proof.
  unfold get_latest_event, bind. split.
  - intros Hg. now rewrite (get_latest_missing sid w Hg).
  - intros s Hg. rewrite (get_latest_run sid w s Hg). split.
    + intros ->. reflexivity.
    + intros pre e ->.
      now rewrite (snoc_last (fun x => Some (event_to_dict x)) None).
Qed.

Lemma X15_latest_endpoint_witness :
  (dict_get "s1" (_sessions world_started) = Some session_started
   /\ events session_started = []
   /\ dict_get "s1" (_sessions world_overshoot) = Some session_overshoot)
  /\ get_latest_event "s1" world_started
     = (Raise (HTTPException 404 "No events found for session"),
        world_started)
  /\ get_latest_event "s1" world_overshoot
     = (Return
          (EventDict.mk 20 (2 # 5) 0 (1 # 5000) (4 * usec_per_sec)
             None None None), world_overshoot).
Proof.
  split; [repeat split; reflexivity|]. split.
  - exact (proj1 (proj2 (X15_latest_endpoint "s1" world_started)
                    session_started eq_refl) eq_refl).
  - exact (proj2 (proj2 (X15_latest_endpoint "s1" world_overshoot)
                    session_overshoot eq_refl)
             [mkEvent 10 (1 # 2) 0 (1 # 5000) (2 * usec_per_sec)
                None None None]
             (mkEvent 20 (2 # 5) 0 (1 # 5000) (4 * usec_per_sec)
                None None None) eq_refl).
Defined.

(** X16: [get_training_status] raises the 404 "Training session not
    found" exactly when the session id is not registered.  For a
    registered session it ends as [get_status] does: either with
    [OverflowError], when the snapshot cannot be computed, or with a
    response that carries every key of the snapshot unchanged,
    ["event_count"] included.  The tracker is never changed. *)
Theorem X16_status_endpoint (sid : string) (w : World) :
  (dict_get sid (_sessions w) = None ->
   get_training_status sid w = (Raise not_found, w))
  /\ (forall s,
        dict_get sid (_sessions w) = Some s ->
        get_training_status sid w <> (Raise not_found, w)
        /\ ((get_status sid w = (Raise OverflowError, w)
             /\ get_training_status sid w = (Raise OverflowError, w))
            \/ exists snap response,
                 get_status sid w = (Return (Some snap), w)
                 /\ get_training_status sid w = (Return response, w)
                 /\ TrainingStatusResponse.session_id response
                    = StatusDict.session_id snap
                 /\ TrainingStatusResponse.job_id response
                    = StatusDict.job_id snap
                 /\ TrainingStatusResponse.model_id response
                    = StatusDict.model_id snap
                 /\ TrainingStatusResponse.status response
                    = StatusDict.status snap
                 /\ TrainingStatusResponse.total_steps response
                    = StatusDict.total_steps snap
                 /\ TrainingStatusResponse.total_epochs response
                    = StatusDict.total_epochs snap
                 /\ TrainingStatusResponse.current_step response
                    = StatusDict.current_step snap
                 /\ TrainingStatusResponse.current_epoch response
                    = StatusDict.current_epoch snap
                 /\ TrainingStatusResponse.progress_percent response
                    = StatusDict.progress_percent snap
                 /\ TrainingStatusResponse.latest_loss response
                    = StatusDict.latest_loss snap
                 /\ TrainingStatusResponse.eta_seconds response
                    = StatusDict.eta_seconds snap
                 /\ TrainingStatusResponse.eta_formatted response
                    = StatusDict.eta_formatted snap
                 /\ TrainingStatusResponse.created_at response
                    = StatusDict.created_at snap
                 /\ TrainingStatusResponse.started_at response
                    = StatusDict.started_at snap
                 /\ TrainingStatusResponse.completed_at response
                    = StatusDict.completed_at snap
                 /\ TrainingStatusResponse.error_message response
                    = StatusDict.error_message snap
                 /\ TrainingStatusResponse.event_count response
                    = StatusDict.event_count snap
                 /\ StatusDict.status snap = status_value (status s)
                 /\ StatusDict.current_step snap = current_step s
                 /\ StatusDict.event_count snap = List.length (events s))).
Proof.
  unfold get_training_status, bind. split.
  - intros Hg. now rewrite (get_status_missing sid w Hg).
  - intros s Hg.
    destruct (to_dict_outcome s) as [(eta & _ & Hto)|Hto].
    + rewrite (get_status_returns sid w s _ Hg Hto).
      split; [discriminate|]. right. do 2 eexists.
      split; [reflexivity|]. split; [reflexivity|]. repeat split.
    + rewrite (get_status_raises sid w s _ Hg Hto).
      split; [discriminate|]. left. split; reflexivity.
Qed.

Lemma X16_status_endpoint_witness :
  (dict_get "s9" (_sessions world_started) = None
   /\ dict_get "s1" (_sessions world_overshoot) = Some session_overshoot)
  /\ get_training_status "s9" world_started = (Raise not_found, world_started)
  /\ exists response,
       get_training_status "s1" world_overshoot
       = (Return response, world_overshoot)
       /\ TrainingStatusResponse.status response = "running"%string
       /\ TrainingStatusResponse.current_step response = 20
       /\ TrainingStatusResponse.event_count response = 2%nat.
Proof.
  split; [split; reflexivity|]. split.
  - exact (proj1 (X16_status_endpoint "s9" world_started) eq_refl).
  - destruct (proj2 (X16_status_endpoint "s1" world_overshoot)
                session_overshoot eq_refl)
      as (_ & [(Hraise & _)|(snap & response & _ & Hrun & _ & _ & _ & Hst
                             & _ & _ & Hcur & _ & _ & _ & _ & _ & _ & _ & _
                             & _ & Hn & Hst' & Hcur' & Hn')]).
    + exfalso. vm_compute in Hraise. discriminate.
    + exists response. split; [exact Hrun|].
      split; [now rewrite Hst, Hst'|].
      split; [now rewrite Hcur, Hcur'|now rewrite Hn, Hn'].
Defined.

(** ** The progress feed *)











(** ** Histories and incremental reads *)

(** X19: the loss history is the event log seen through (step, loss).
    After a successful [add_event] the session's [get_loss_history] is
    the earlier history followed by the reported (step, loss) pair;
    and at any time it is, entry by entry and in the same order, the
    (step, loss) pairs of what [get_events] returns without
    [since_step]. *)
Theorem X19_loss_history (w : World) (sid : string) (s : TrainingSession)
    (st : Z) (lo : Q) (ep : Z) (lr : Q) (gn tps mem : option Q) :
  dict_get sid (_sessions w) = Some s ->
  (exists l,
     get_events sid None w = (Return l, w)
     /\ map (fun d => (EventDict.step d, EventDict.loss d)) l
        = get_loss_history s)
  /\ exists s',
       dict_get sid (_sessions (snd (add_event sid st lo ep lr gn tps mem w)))
       = Some s'
       /\ get_loss_history s' = get_loss_history s ++ [(st, lo)].
Proof.
  intros Hg. split.
  - eexists. split; [apply (get_events_run sid None w s Hg)|].
    unfold get_loss_history. rewrite map_map. reflexivity.
  - rewrite (add_event_run sid st lo ep lr gn tps mem w s Hg).
    cbn [snd _sessions]. eexists. split; [apply dict_get_set_same|].
    unfold get_loss_history, appended. cbn [events].
    now rewrite map_app.
Qed.

Lemma X19_loss_history_witness :
  dict_get "s1" (_sessions world_overshoot) = Some session_overshoot
  /\ exists s',
       dict_get "s1"
         (_sessions
            (snd (add_event "s1" 30 (3 # 10) 0 (1 # 5000) None None None
                    world_overshoot))) = Some s'
       /\ get_loss_history s'
          = [(10, 1 # 2); (20, 2 # 5); (30, 3 # 10)].
Proof.
  split; [reflexivity|].
  destruct (X19_loss_history world_overshoot "s1" session_overshoot
              30 (3 # 10) 0 (1 # 5000) None None None eq_refl)
    as (_ & s' & Hg & Hh).
  exists s'. split; [exact Hg|]. rewrite Hh. reflexivity.
Defined.

Lemma filter_filter_le (l : list TrainingEvent) (k1 k2 : Z) :
  k1 <= k2 ->
  filter (fun e => k2 <? step e) (filter (fun e => k1 <? step e) l)
  = filter (fun e => k2 <? step e) l.
Proof.
  intros Hk. induction l as [|e l IH]; simpl; [reflexivity|].
  destruct (Z.ltb_spec k1 (step e)); simpl.
  - now rewrite IH.
  - destruct (Z.ltb_spec k2 (step e)); [lia|exact IH].
Qed.

(** X20: incremental reads compose.  For a registered session and
    cursors [k1 <= k2], what [get_events] returns for [since_step = k2]
    is what it returns for [since_step = k1] with the events of step at
    most [k2] removed, and what it returns for any cursor is what it
    returns without cursor with the events at or below the cursor
    removed: order and repetitions are those of the full log. *)
Theorem X20_since_step_composes (w : World) (sid : string)
    (s : TrainingSession) (k1 k2 : Z) :
  dict_get sid (_sessions w) = Some s ->
  k1 <= k2 ->
  exists all l1 l2,
    get_events sid None w = (Return all, w)
    /\ get_events sid (Some k1) w = (Return l1, w)
    /\ get_events sid (Some k2) w = (Return l2, w)
    /\ l1 = filter (fun d => k1 <? EventDict.step d) all
    /\ l2 = filter (fun d => k2 <? EventDict.step d) l1.
Proof.
  intros Hg Hk. do 3 eexists.
  split; [apply (get_events_run sid None w s Hg)|].
  split; [apply (get_events_run sid (Some k1) w s Hg)|].
  split; [apply (get_events_run sid (Some k2) w s Hg)|].
  split.
  - now rewrite filter_event_dicts.
  - now rewrite filter_event_dicts, filter_filter_le.
Qed.

Lemma X20_since_step_composes_witness :
  (dict_get "s1" (_sessions world_overshoot) = Some session_overshoot
   /\ 5 <= 10)
  /\ exists all l1 l2,
       get_events "s1" None world_overshoot = (Return all, world_overshoot)
       /\ get_events "s1" (Some 5) world_overshoot
          = (Return l1, world_overshoot)
       /\ get_events "s1" (Some 10) world_overshoot
          = (Return l2, world_overshoot)
       /\ l1 = filter (fun d => 5 <? EventDict.step d) all
       /\ l2 = filter (fun d => 10 <? EventDict.step d) l1.
Proof.
  assert (H : 5 <= 10) by discriminate.
  split; [split; [reflexivity|exact H]|].
  exact (X20_since_step_composes world_overshoot "s1" session_overshoot
           5 10 eq_refl H).
Defined.

(** ** Updates refresh the time to live *)

Lemma last_activity_updated o c s :
  is_update o = true ->
  _last_activity (updated o c s)
  = ticks c (reads c + readings o - 1)%nat.
Proof.
  destruct o; simpl; try discriminate; intros _; f_equal; lia.
Qed.

(** X21: any update gives the session a new lease.  After a successful
    [add_event], [complete_session] or [fail_session] the session's
    last activity is the last clock reading of that call, whatever it
    was before: if the readings of the next sweep are at most two hours
    later than that reading, [list_sessions] keeps the session, even one
    whose time to live had already run out before the update. *)
Theorem X21_update_renews_lease (w : World) (o : Op) (sid : string)
    (s : TrainingSession) :
  dict_wf (_sessions w) ->
  is_update o = true ->
  target o = Some sid ->
  dict_get sid (_sessions w) = Some s ->
  let w1 := after o w in
  let renewed := ticks (clock w) (reads (clock w) + readings o - 1)%nat in
  (forall k,
     (reads (clock w1) <= k < reads (clock w1) + List.length (_sessions w1))%nat ->
     ticks (clock w1) k <= renewed + 2 * 3600 * 1000000) ->
  exists s',
    dict_get sid (_sessions w1) = Some s'
    /\ _last_activity s' = renewed
    /\ dict_get sid (_sessions (snd (list_sessions w1))) = Some s'.
Proof.
  intros Hwf Hu Ht Hg w1 renewed Hlive.
  assert (Hw1 : w1 = mkWorld (dict_set sid (updated o (clock w) s)
                                (_sessions w))
                             (advance (readings o) (clock w))).
  { unfold w1, after. now rewrite (after_update_found o sid s w Hu Ht Hg). }
  assert (Hwf1 : dict_wf (_sessions w1)) by now apply after_wf.
  assert (Hg1 : dict_get sid (_sessions w1) = Some (updated o (clock w) s))
    by (rewrite Hw1; apply dict_get_set_same).
  exists (updated o (clock w) s).
  split; [exact Hg1|].
  split; [now apply last_activity_updated|].
  destruct (dict_get_nth sid (_sessions w1) _ Hg1) as [i Hi].
  assert (Hi' : (i < List.length (_sessions w1))%nat)
    by (apply nth_error_Some; congruence).
  rewrite (list_sessions_run w1 Hwf1). cbn [snd _sessions].
  rewrite (swept_get _ _ _ i sid _ Hwf1 Hi).
  unfold expired_at, timedelta_hours, default_ttl_hours, usec_per_sec.
  rewrite (last_activity_updated o (clock w) s Hu). fold renewed.
  specialize (Hlive (reads (clock w1) + i)%nat ltac:(lia)).
  destruct (Z.ltb_spec (renewed + 2 * 3600 * 1000000)
              (ticks (clock w1) (reads (clock w1) + i)%nat));
    [lia|reflexivity].
Qed.

(** In [world_stale] the session is past its time to live; a report
    arrives before any sweep, and the following [list_sessions] keeps the
    session. *)
Lemma X21_update_renews_lease_witness :
  (dict_wf (_sessions world_stale)
   /\ expired_at (ticks (clock world_stale) 0) session_started = true
   /\ dict_get "s1" (_sessions world_stale) = Some session_started)
  /\ exists s',
       dict_get "s1"
         (_sessions
            (snd (list_sessions
                    (after (AddEvent "s1" 5 (1 # 2) 0 (1 # 5000)
                              None None None) world_stale)))) = Some s'
       /\ _last_activity s' = 3 * 3600 * usec_per_sec.
Proof.
  assert (Hwf : dict_wf (_sessions world_stale))
    by apply (reachable_wf clock_1s [StartSession "s1" "j1" "m1" 100 1]).
  split; [split; [exact Hwf|split; reflexivity]|].
  destruct (X21_update_renews_lease world_stale
              (AddEvent "s1" 5 (1 # 2) 0 (1 # 5000) None None None)
              "s1" session_started Hwf eq_refl eq_refl eq_refl)
    as (s' & _ & Hla & Hkept).
  - intros k _. vm_compute. discriminate.
  - exists s'. split; [exact Hkept|]. rewrite Hla. reflexivity.
Defined.

(** X22: [start_training_session] never raises; its reply carries the
    requested session id and the status "pending", also when the id was
    already registered with a session in another status.  Right
    afterwards the status endpoint answers for that id (no 404) with
    status "pending", step 0 and no completion time. *)
Theorem X22_start_endpoint (request : TrainingStartRequest.t) (w : World) :
  dict_wf (_sessions w) ->
  let sid := TrainingStartRequest.session_id request in
  exists w',
    start_training_session request w
    = (Return (StartReply.mk "Training session started" sid "pending"), w')
    /\ exists response,
         get_training_status sid w' = (Return response, w')
         /\ TrainingStatusResponse.session_id response = sid
         /\ TrainingStatusResponse.status response = "pending"%string
         /\ TrainingStatusResponse.current_step response = 0
         /\ TrainingStatusResponse.completed_at response = None
         /\ TrainingStatusResponse.total_steps response
            = TrainingStartRequest.total_steps request.
Proof.
  intros Hwf sid. unfold start_training_session, bind.
  rewrite (start_session_run _ _ _ _ _ w Hwf). fold sid.
  cbn [fresh session_id status status_value].
  eexists. split; [reflexivity|].
  set (s := fresh _ _ sid _ _ _ _). set (w' := mkWorld _ _).
  assert (Hg : dict_get sid (_sessions w') = Some s)
    by apply dict_get_set_same.
  assert (Hto : to_dict s = Return (snapshot s None))
    by (apply to_dict_few_events; [simpl; lia|apply float_limit_pos]).
  unfold get_training_status, bind.
  rewrite (get_status_returns sid w' s _ Hg Hto).
  eexists. split; [reflexivity|]. repeat split.
Qed.

Lemma X22_start_endpoint_witness :
  (dict_wf (_sessions world_failed_early)
   /\ status_of "s1" world_failed_early = Some FAILED)
  /\ exists w',
       start_training_session
         (TrainingStartRequest.mk "s1" "j2" "m2" 300 2) world_failed_early
       = (Return (StartReply.mk "Training session started" "s1" "pending"),
          w').
Proof.
  assert (Hwf : dict_wf (_sessions world_failed_early))
    by apply reachable_wf.
  split; [split; [exact Hwf|reflexivity]|].
  destruct (X22_start_endpoint
              (TrainingStartRequest.mk "s1" "j2" "m2" 300 2)
              world_failed_early Hwf) as (w' & Hrun & _).
  exists w'. exact Hrun.
Defined.
